(** * hevy-sync: the FIT activity generator and the incremental sync pass

    A shallow embedding of [src/src/fit_generator.py] (class [FitGenerator])
    and of [src/src/sync_app.py] ([get_last_sync_date], [set_last_sync_date],
    [main]), and of [prepare_hevy_syncdata], [generate_strength_fitdata]
    ([src/hevy_sync/sync.py]) and [HevyWorkout.json_dict]
    ([src/hevy_sync/hevy.py]), with the properties of the specification
    stated over it.

    Conventions of the embedding.
    - A Python [datetime] is its wall-clock reading, an integer count of
      microseconds since 0001-01-01T00:00:00, together with its [tzinfo]
      (absent for a naive value, otherwise the UTC offset in microseconds).
      A [timedelta] is an integer count of microseconds.  Python keeps a
      [datetime] within the years 1..9999: [datetime_ok] is that range, and
      [dt_add] is [None] where Python raises [OverflowError].
    - [timedelta.total_seconds()] is a float: the double nearest to the
      exact quotient.  [int_total_seconds] rounds as the double does and
      then truncates, as [int] does.
    - A string is a sequence of code points below 256.
    - A workout dictionary is a record of optional fields: [None] is an
      absent key.
    - [datetime.fromisoformat], [isoformat] and the Garmin upload are
      parameters of the development; executable instances are given in
      module [Py] for evaluation on concrete inputs.  The two steps of
      [fit_tool] that the generator reaches are written out in
      [set_time_created] and at line 75 of the generator. *)

From Stdlib Require Import ZArith Lia List Bool Ascii String.
From Stdlib Require Import Strings.Byte.
From stdpp Require Import base option gmap strings list.
Import ListNotations.
Open Scope Z_scope.

(** ** Dates and times *)

Definition timedelta := Z.

Record datetime := mk_datetime {
  wall : Z;
  tzinfo : option Z
}.

Definition US_PER_SECOND : Z := 1000000.

(** [datetime.timedelta(seconds=s)] and [timedelta(days=d)]. *)
Definition timedelta_seconds (s : Z) : timedelta := s * US_PER_SECOND.
Definition timedelta_days (d : Z) : timedelta := d * 86400 * US_PER_SECOND.

(** [d.replace(tzinfo=timezone.utc)]: the wall-clock reading is kept. *)
Definition replace_tzinfo_utc (d : datetime) : datetime :=
  {| wall := wall d; tzinfo := Some 0 |}.

(** The proleptic Gregorian calendar, as in CPython's [datetime]. *)
Definition is_leap (y : Z) : bool :=
  (y mod 4 =? 0) && (negb (y mod 100 =? 0) || (y mod 400 =? 0)).

Definition days_before_year (y : Z) : Z :=
  let p := y - 1 in p * 365 + p / 4 - p / 100 + p / 400.

Definition days_in_month (y m : Z) : Z :=
  if m =? 2 then (if is_leap y then 29 else 28)
  else if (m =? 4) || (m =? 6) || (m =? 9) || (m =? 11) then 30 else 31.

Fixpoint days_before_month_aux (y : Z) (k : nat) : Z :=
  match k with
  | O => 0
  | S k' => days_before_month_aux y k' + days_in_month y (Z.of_nat k)
  end.

Definition days_before_month (y m : Z) : Z :=
  days_before_month_aux y (Z.to_nat (m - 1)).

Definition ymd2ord (y m d : Z) : Z :=
  days_before_year y + days_before_month y m + d.

(** [datetime(y, m, d, hh, mm, ss, us)] as a wall-clock reading. *)
Definition civil (y m d hh mm ss us : Z) : Z :=
  ((((ymd2ord y m d - 1) * 24 + hh) * 60 + mm) * 60 + ss) * US_PER_SECOND + us.

Definition datetime_utc (y m d hh mm ss : Z) : datetime :=
  {| wall := civil y m d hh mm ss 0; tzinfo := Some 0 |}.

(** [datetime.max], 9999-12-31T23:59:59.999999, as a wall-clock reading;
    [datetime.min] is the reading 0. *)
Definition MAX_WALL : Z := Eval vm_compute in civil 9999 12 31 23 59 59 999999.



(** [d + td]: the wall-clock reading moves, the [tzinfo] stays; [None] is
    Python's [OverflowError] (date value out of range). *)
Definition dt_add (d : datetime) (td : timedelta) : option datetime :=
  let w := wall d + td in
  if (0 <=? w) && (w <=? MAX_WALL)
  then Some {| wall := w; tzinfo := tzinfo d |}
  else None.

(** [a - b] on datetimes: Python raises [TypeError] when exactly one operand
    is naive ([None] here). *)
Definition dt_sub (a b : datetime) : option timedelta :=
  match tzinfo a, tzinfo b with
  | Some oa, Some ob => Some ((wall a - oa) - (wall b - ob))
  | None, None => Some (wall a - wall b)
  | _, _ => None
  end.

(** The UTC instant of a datetime; a naive value is read as it stands. *)
Definition instant (d : datetime) : Z := wall d - default 0 (tzinfo d).

(** [a <= b] and [a > b].  In [sync_app.main] both operands are always
    aware (they come from [replace(tzinfo=utc)] or [now(utc)]), where
    Python compares the UTC instants. *)
Definition dt_leb (a b : datetime) : bool := instant a <=? instant b.
Definition dt_gtb (a b : datetime) : bool := instant b <? instant a.

(** The integer nearest to [a / b] for [a >= 0] and [b > 0], a tie going
    to the even one. *)
Definition round_half_even (a b : Z) : Z :=
  let q := a / b in
  let r := a mod b in
  if 2 * r <? b then q
  else if b <? 2 * r then q + 1
  else if Z.even q then q else q + 1.

(** [int(td.total_seconds())].  [total_seconds] divides the microseconds
    by 10^6 as Python divides integers: the result is the double nearest
    to the quotient, that is the quotient rounded to 53 significant bits;
    [int] then truncates towards zero.  A quotient below 1 in absolute
    value is at most 0.999999 and its double stays below 1. *)
Definition int_total_seconds (td : timedelta) : Z :=
  let a := Z.abs td in
  let k := a / US_PER_SECOND in
  if k =? 0 then 0
  else
    let e := Z.log2 k in
    Z.sgn td *
    (if e <=? 52
     then Z.shiftr (round_half_even (a * 2 ^ (52 - e)) US_PER_SECOND) (52 - e)
     else round_half_even a (US_PER_SECOND * 2 ^ (e - 52)) * 2 ^ (e - 52)).

(** [datetime.datetime(1989, 12, 31, 0, 0, 0, tzinfo=datetime.timezone.utc)] *)
Definition garmin_epoch : datetime := datetime_utc 1989 12 31 0 0 0.

(** ** Exceptions and results *)

Inductive exn :=
| KeyError (key : string)
| ValueError
| TypeError
| OverflowError
| FileNotFoundError
| UnicodeDecodeError
| FitEncodingError (value : Z)
| AttributeError.

Inductive result (A : Type) :=
| Ok (a : A)
| Raise (e : exn).
Arguments Ok {A} a.
Arguments Raise {A} e.

#[global] Instance result_ret : MRet result := fun A a => Ok a.
#[global] Instance result_bind : MBind result := fun A B f r =>
  match r with
  | Ok a => f a
  | Raise e => Raise e
  end.

(** [d[key]] on a dictionary and a library call that may raise. *)
Definition or_raise {A} (e : exn) (o : option A) : result A :=
  match o with
  | Some a => Ok a
  | None => Raise e
  end.

Definition is_ok {A} (r : result A) : bool :=
  match r with
  | Ok _ => true
  | Raise _ => false
  end.

(** ** The fetched session record (a Hevy workout dictionary) *)

Record hevy_set := {
  reps : option Z;
  weight_lbs : option Z;
  duration_seconds : option Z
}.

Record hevy_exercise := {
  exercise_title : option string;
  sets : option (list hevy_set)
}.

Record hevy_workout := {
  title : option string;
  start_time : option string;
  end_time : option string;
  exercises : option (list hevy_exercise)
}.

(** ** The file system the generator and the sync pass act on *)

Record filesystem := {
  dirs : gset string;
  files : gmap string (list byte)
}.

(** Directories and regular files are kept under the names the program
    uses for them; the directories above a path are not tracked.  The
    watermark file of [sync_app] is kept apart from this record (see
    [main]). *)
Definition dir_exists (fs : filesystem) (d : string) : bool :=
  bool_decide (d ∈ dirs fs).
Definition file_exists (fs : filesystem) (p : string) : bool :=
  bool_decide (is_Some (files fs !! p)).

(** Truth value of a string: [if s:]. *)
Definition truthy (s : string) : bool :=
  match s with
  | EmptyString => false
  | _ => true
  end.

(** [os.path.exists]: a directory or a file of that name; the empty name
    names nothing. *)
Definition path_exists (fs : filesystem) (p : string) : bool :=
  truthy p && (dir_exists fs p || file_exists fs p).

(** [os.makedirs(d)] for a name that does not exist yet: the empty name
    is refused with [FileNotFoundError] and nothing is created. *)
Definition makedirs (fs : filesystem) (d : string) : result filesystem :=
  if truthy d
  then Ok {| dirs := {[ d ]} ∪ dirs fs; files := files fs |}
  else Raise FileNotFoundError.

(** [os.remove] of a regular file. *)
Definition os_remove (fs : filesystem) (p : string) : filesystem :=
  {| dirs := dirs fs; files := delete p (files fs) |}.

(** [str.strip()]: the white space among the code points below 256. *)
Definition is_space (c : ascii) : bool :=
  let n := N_of_ascii c in
  ((9 <=? n) && (n <=? 13) || (28 <=? n) && (n <=? 32)
   || (n =? 133) || (n =? 160))%N.

Fixpoint lstrip (cs : list ascii) : list ascii :=
  match cs with
  | c :: cs' => if is_space c then lstrip cs' else cs
  | [] => []
  end.

Definition strip (s : string) : string :=
  string_of_list_ascii (rev (lstrip (rev (lstrip (list_ascii_of_string s))))).

(** ** [fit_tool]: what the generator reaches of it

    [FileIdMessage.time_created] is a date-time field.  Its setter takes
    milliseconds since the Unix epoch and encodes them on assignment as
    seconds since the FIT epoch in an unsigned 32-bit integer,
    [(v - 631065600000) * 0.001]; a value that does not fit is refused with
    [FitEncodingError].  [FitEncodingError v] records the value [v] the
    setter was given; the message of the library quotes the number it
    could not encode, [(v - 631065600000) * 0.001].  How the library
    rounds at the two ends of the range does not matter below: the
    generator hands the setter a count of seconds, which lies far under
    the lower end (see [time_created_refused]). *)

Definition FIT_EPOCH_MS : Z := 631065600000.
Definition UINT32_MAX : Z := 4294967295.

Definition set_time_created (v : Z) : result unit :=
  if (FIT_EPOCH_MS <=? v) && (v <=? FIT_EPOCH_MS + UINT32_MAX * 1000)
  then Ok tt
  else Raise (FitEncodingError v).

(** ** [FitGenerator.generate_strength_activity_fit] *)

Section FitGenerator.

(** [datetime.datetime.fromisoformat]: [None] is [ValueError]. *)
Variable fromisoformat : string -> option datetime.

(** Lines 44-47: a naive datetime is labelled UTC. *)
Definition ensure_utc (d : datetime) : datetime :=
  match tzinfo d with
  | None => replace_tzinfo_utc d
  | Some _ => d
  end.

(** [int((d - garmin_epoch).total_seconds())] *)
Definition fit_timestamp (d : datetime) : result Z :=
  td ← or_raise TypeError (dt_sub d garmin_epoch);
  mret (int_total_seconds td).

(** Lines 37-75.  Lines 52-55 compute the elapsed time and the calories
    as floats, which cannot raise.  Line 65 assigns the start, a count of
    seconds since the FIT epoch, to [time_created].  Should that setter
    accept the value, lines 66-74 go on with further setters and line 75
    evaluates [Sport.STRENGTH_TRAINING]: [fit_tool] has this member in
    [SubSport], not in [Sport], and the attribute access raises
    [AttributeError].  No path through these lines reaches line 76, so
    the messages of lines 76-134 and the file of lines 137-145 are never
    built. *)
Definition strength_activity_header (hevy_workout_data : hevy_workout)
    : result string :=
  s ← or_raise (KeyError "start_time") (start_time hevy_workout_data);
  start0 ← or_raise ValueError (fromisoformat s);
  e ← or_raise (KeyError "end_time") (end_time hevy_workout_data);
  end0 ← or_raise ValueError (fromisoformat e);
  let start_datetime := ensure_utc start0 in
  let end_datetime := ensure_utc end0 in
  timestamp_fit_start ← fit_timestamp start_datetime;
  timestamp_fit_end ← fit_timestamp end_datetime;
  total_elapsed_time_seconds ← or_raise TypeError
                                 (dt_sub end_datetime start_datetime);
  _ ← set_time_created timestamp_fit_start;
  Raise AttributeError.

(** Lines 32-75: the directory is made first, when no path of that name
    exists; the result is the path the signature promises ([-> str]) or
    the exception raised. *)
Definition generate_strength_activity_fit (hevy_workout_data : hevy_workout)
    (output_dir : string) (fs : filesystem) : result string * filesystem :=
  match (if path_exists fs output_dir then Ok fs
         else makedirs fs output_dir) with
  | Raise e => (Raise e, fs)
  | Ok fs1 => (strength_activity_header hevy_workout_data, fs1)
  end.

End FitGenerator.


(** ** [sync_app]: the watermark file and one synchronization pass *)

(** What [f.read()] finds in [LAST_SYNC_DATE_FILE]: text, or bytes that
    do not decode, where [read] raises [UnicodeDecodeError]. *)
Inductive file_content :=
| Undecodable
| Text (s : string).

Inductive upload_outcome := UploadTrue | UploadFalse | UploadRaise.

(** What a pass does with each fetched workout, in order; [i] is the
    position of the workout in the fetched list. *)
Inductive log_entry :=
| SkipSynced (i : nat)
| SkipUnparsable (i : nat)
| EncodeCall (i : nat) (r : result string)
| UploadCall (i : nat) (path : string) (title0 : option string)
    (o : upload_outcome)
| Removed (path : string).

Inductive filter_decision :=
| AlreadySynced
| Unparsable
| Proceed (latest : datetime).

Record loop_state := {
  latest_workout_time : datetime;
  successful_uploads : nat;
  fit_file_path : option string;
  disk : filesystem;
  log : list log_entry
}.

(** The outcome of [main]: the date handed to [set_last_sync_date] if
    any, the watermark file and the disk afterwards, what was done with
    each workout, the count of line 86, and the exception that ended
    [main] if one did. *)
Record pass_result := {
  written : option datetime;
  sync_file_after : option file_content;
  disk_after : filesystem;
  pass_log : list log_entry;
  uploaded : nat;
  raised : option exn
}.

Section SyncApp.

Variable fromisoformat : string -> option datetime.
(** [d.isoformat()] *)
Variable isoformat : datetime -> string.
(** [GarminClient.upload_activity_file(path, title)] for the workout at
    position [i]: an external collaborator. *)
Variable upload_activity_file : nat -> string -> option string -> upload_outcome.

(** [datetime.now(timezone.utc)] at clock reading [now]. *)
Definition now_utc (now : Z) : datetime := {| wall := now; tzinfo := Some 0 |}.

(** Lines 13-25.  [sync_file] is the content of [LAST_SYNC_DATE_FILE], or
    [None] when the file does not exist.  [f.read()] at line 17 stands
    outside the [try] of line 19.  Line 25 moves the clock reading back by
    30 days: the clock of a running system reads no date in January of the
    year 1, so this subtraction stays within the range of [datetime]. *)
Definition get_last_sync_date (sync_file : option file_content) (now : Z)
    : result datetime :=
  let fallback := now_utc (now - timedelta_days 30) in
  match sync_file with
  | Some Undecodable => Raise UnicodeDecodeError
  | Some (Text content) =>
      let date_str := strip content in
      if truthy date_str then
        match fromisoformat date_str with
        | Some d => Ok (replace_tzinfo_utc d)
        | None => Ok fallback
        end
      else Ok fallback
  | None => Ok fallback
  end.

(** Lines 27-30: the new content of [LAST_SYNC_DATE_FILE]. *)
Definition set_last_sync_date (sync_date : datetime) : option file_content :=
  Some (Text (isoformat sync_date)).

(** Lines 64-77: the watermark filter, with the running maximum. *)
Definition filter_workout (last_sync_date latest : datetime)
    (workout : hevy_workout) : filter_decision :=
  match start_time workout with
  | Some workout_start_time_str =>
      if truthy workout_start_time_str then
        match fromisoformat workout_start_time_str with
        | Some d =>
            let workout_start_time := replace_tzinfo_utc d in
            if dt_leb workout_start_time last_sync_date then AlreadySynced
            else if dt_gtb workout_start_time latest
                 then Proceed workout_start_time
                 else Proceed latest
        | None => Unparsable
        end
      else Proceed latest
  | None => Proceed latest
  end.

Definition add_log (st : loop_state) (e : log_entry) : loop_state :=
  {| latest_workout_time := latest_workout_time st;
     successful_uploads := successful_uploads st;
     fit_file_path := fit_file_path st;
     disk := disk st;
     log := log st ++ [e] |}.

(** Lines 91-95: the [finally] clause.  [fit_file_path] is a local of
    [main] that outlives the iteration that bound it; it is bound at line
    81 only, to what the generator returned, the path of a regular file. *)
Definition cleanup (st : loop_state) : loop_state :=
  match fit_file_path st with
  | Some p =>
      if file_exists (disk st) p then
        {| latest_workout_time := latest_workout_time st;
           successful_uploads := successful_uploads st;
           fit_file_path := fit_file_path st;
           disk := os_remove (disk st) p;
           log := log st ++ [Removed p] |}
      else st
  | None => st
  end.

(** Lines 79-95: generate, upload, clean up.  [except Exception] takes
    whatever the generator or the upload raises. *)
Definition encode_and_upload (i : nat) (st : loop_state)
    (workout : hevy_workout) : loop_state :=
  let '(r, fs1) :=
    generate_strength_activity_fit fromisoformat
      workout "temp_fit_files" (disk st) in
  let st1 :=
    {| latest_workout_time := latest_workout_time st;
       successful_uploads := successful_uploads st;
       fit_file_path := fit_file_path st;
       disk := fs1;
       log := log st ++ [EncodeCall i r] |} in
  let st2 :=
    match r with
    | Ok path =>
        let o := upload_activity_file i path (title workout) in
        {| latest_workout_time := latest_workout_time st1;
           successful_uploads :=
             match o with
             | UploadTrue => S (successful_uploads st1)
             | _ => successful_uploads st1
             end;
           fit_file_path := Some path;
           disk := disk st1;
           log := log st1 ++ [UploadCall i path (title workout) o] |}
    | Raise _ => st1
    end in
  cleanup st2.

(** Lines 63-95: the body of the loop. *)
Definition process_workout (last_sync_date : datetime) (i : nat)
    (st : loop_state) (workout : hevy_workout) : loop_state :=
  match filter_workout last_sync_date (latest_workout_time st) workout with
  | AlreadySynced => add_log st (SkipSynced i)
  | Unparsable => add_log st (SkipUnparsable i)
  | Proceed latest =>
      encode_and_upload i
        {| latest_workout_time := latest;
           successful_uploads := successful_uploads st;
           fit_file_path := fit_file_path st;
           disk := disk st;
           log := log st |}
        workout
  end.

Fixpoint process_workouts (last_sync_date : datetime) (i : nat)
    (st : loop_state) (workouts : list hevy_workout) : loop_state :=
  match workouts with
  | [] => st
  | workout :: rest =>
      process_workouts last_sync_date (S i)
        (process_workout last_sync_date i st workout) rest
  end.

(** Lines 32-102.  [now_load] and [now_pass] are the clock readings of
    [get_last_sync_date] and of [current_time].  [fetched] is the outcome
    of the [try] block of lines 45-52 as a whole: the list that
    [hevy_client.get_workouts] returned, or [None] when the block raised
    (the client failed, or [current_time + timedelta(hours=1)] left the
    range of [datetime]).  An exception of line 41 or of line 99 is caught
    nowhere and ends [main]: nothing is written.  Lines 101-102 only log:
    they read back the file just written and change nothing. *)
Definition main (sync_file : option file_content) (fs : filesystem)
    (now_load now_pass : Z) (fetched : option (list hevy_workout))
    : pass_result :=
  match get_last_sync_date sync_file now_load with
  | Raise e =>
      {| written := None; sync_file_after := sync_file; disk_after := fs;
         pass_log := []; uploaded := 0; raised := Some e |}
  | Ok last_sync_date =>
      let current_time := now_utc now_pass in
      match fetched with
      | None =>
          {| written := None; sync_file_after := sync_file; disk_after := fs;
             pass_log := []; uploaded := 0; raised := None |}
      | Some [] =>
          {| written := Some current_time;
             sync_file_after := set_last_sync_date current_time;
             disk_after := fs; pass_log := []; uploaded := 0;
             raised := None |}
      | Some workouts_to_sync =>
          let st := process_workouts last_sync_date 0
            {| latest_workout_time := last_sync_date;
               successful_uploads := 0;
               fit_file_path := None;
               disk := fs;
               log := [] |} workouts_to_sync in
          match dt_add (latest_workout_time st) (timedelta_seconds 1) with
          | Some next =>
              {| written := Some next;
                 sync_file_after := set_last_sync_date next;
                 disk_after := disk st; pass_log := log st;
                 uploaded := successful_uploads st; raised := None |}
          | None =>
              {| written := None; sync_file_after := sync_file;
                 disk_after := disk st; pass_log := log st;
                 uploaded := successful_uploads st;
                 raised := Some OverflowError |}
          end
      end
  end.

End SyncApp.

(** ** Executable instances of the library functions

    [Py.fromisoformat] reads [YYYY-MM-DD], optionally followed by [T] or a
    space and [HH:MM:SS], an optional fraction of 3 or 6 digits, and an
    optional [Z] or [+HH:MM] / [-HH:MM] offset; [Py.isoformat] prints as
    CPython does. *)

Module Py.

Definition digit (c : ascii) : option Z :=
  let n := Z.of_N (N_of_ascii c) in
  if (48 <=? n) && (n <=? 57) then Some (n - 48) else None.

Fixpoint digits (k : nat) (cs : list ascii) (acc : Z) : option (Z * list ascii) :=
  match k with
  | O => Some (acc, cs)
  | S k' =>
      match cs with
      | c :: cs' => v ← digit c; digits k' cs' (acc * 10 + v)
      | [] => None
      end
  end.

Definition expect (c : ascii) (cs : list ascii) : option (list ascii) :=
  match cs with
  | c' :: cs' => if Ascii.eqb c c' then Some cs' else None
  | [] => None
  end.

Definition parse_offset (cs : list ascii) : option (option Z) :=
  match cs with
  | [] => Some None
  | c :: cs' =>
      if Ascii.eqb c "Z"%char then
        match cs' with [] => Some (Some 0) | _ => None end
      else
        sign ← (if Ascii.eqb c "+"%char then Some 1
                else if Ascii.eqb c "-"%char then Some (-1) else None);
        '(hh, r1) ← digits 2 cs' 0;
        r2 ← expect ":"%char r1;
        '(mm, r3) ← digits 2 r2 0;
        match r3 with
        | [] => if (hh <? 24) && (mm <? 60)
                then Some (Some (sign * (hh * 3600 + mm * 60) * US_PER_SECOND))
                else None
        | _ => None
        end
  end.

Definition parse_fraction (cs : list ascii) : option (Z * list ascii) :=
  match cs with
  | c :: cs' =>
      if Ascii.eqb c "."%char then
        match digits 6 cs' 0 with
        | Some r => Some r
        | None => '(ms, r) ← digits 3 cs' 0; Some (ms * 1000, r)
        end
      else Some (0, cs)
  | [] => Some (0, cs)
  end.

Definition parse_time (y m d : Z) (cs : list ascii) : option datetime :=
  '(hh, r1) ← digits 2 cs 0;
  r2 ← expect ":"%char r1;
  '(mm, r3) ← digits 2 r2 0;
  r4 ← expect ":"%char r3;
  '(ss, r5) ← digits 2 r4 0;
  '(us, r6) ← parse_fraction r5;
  tz ← parse_offset r6;
  if (hh <? 24) && (mm <? 60) && (ss <? 60)
  then Some {| wall := civil y m d hh mm ss us; tzinfo := tz |}
  else None.

Definition fromisoformat (s : string) : option datetime :=
  let cs := list_ascii_of_string s in
  '(y, r1) ← digits 4 cs 0;
  r2 ← expect "-"%char r1;
  '(m, r3) ← digits 2 r2 0;
  r4 ← expect "-"%char r3;
  '(d, r5) ← digits 2 r4 0;
  if (1 <=? y) && (1 <=? m) && (m <=? 12) && (1 <=? d) && (d <=? days_in_month y m)
  then
    match r5 with
    | [] => Some {| wall := civil y m d 0 0 0 0; tzinfo := None |}
    | c :: r6 =>
        if Ascii.eqb c "T"%char || Ascii.eqb c " "%char
        then parse_time y m d r6
        else None
    end
  else None.

(** CPython's [_ord2ymd]. *)
Definition ord2ymd (ordinal : Z) : Z * Z * Z :=
  let n := ordinal - 1 in
  let n400 := n / 146097 in
  let n := n mod 146097 in
  let n100 := n / 36524 in
  let n := n mod 36524 in
  let n4 := n / 1461 in
  let n := n mod 1461 in
  let n1 := n / 365 in
  let n := n mod 365 in
  let year := n400 * 400 + 1 + n100 * 100 + n4 * 4 + n1 in
  if (n1 =? 4) || (n100 =? 4) then (year - 1, 12, 31)
  else
    let month := (n + 50) / 32 in
    let preceding := days_before_month year month in
    if n <? preceding
    then (year, month - 1, n - (preceding - days_in_month year (month - 1)) + 1)
    else (year, month, n - preceding + 1).

Definition digit_char (v : Z) : ascii := ascii_of_N (Z.to_N (48 + v mod 10)).

Fixpoint padded (k : nat) (v : Z) (acc : list ascii) : list ascii :=
  match k with
  | O => acc
  | S k' => padded k' (v / 10) (digit_char v :: acc)
  end.

Definition pad (k : nat) (v : Z) : string := string_of_list_ascii (padded k v []).

Definition fields (d : datetime) : Z * Z * Z * Z * Z * Z * Z :=
  let us := wall d mod US_PER_SECOND in
  let secs := wall d / US_PER_SECOND in
  let '(y, m, dd) := ord2ymd (secs / 86400 + 1) in
  let sod := secs mod 86400 in
  (y, m, dd, sod / 3600, (sod / 60) mod 60, sod mod 60, us).

Definition isoformat_offset (off : Z) : string :=
  let s := Z.abs off / US_PER_SECOND in
  String.concat "" [if off <? 0 then "-"%string else "+"%string;
                    pad 2 (s / 3600); ":"%string; pad 2 ((s / 60) mod 60)].

Definition isoformat (d : datetime) : string :=
  let '(y, m, dd, hh, mm, ss, us) := fields d in
  String.concat ""
    [pad 4 y; "-"%string; pad 2 m; "-"%string; pad 2 dd; "T"%string;
     pad 2 hh; ":"%string; pad 2 mm; ":"%string; pad 2 ss;
     if us =? 0 then ""%string else String.append "." (pad 6 us);
     match tzinfo d with
     | Some off => isoformat_offset off
     | None => ""%string
     end].

(** An upload collaborator for examples: it always succeeds. *)
Definition upload_ok (i : nat) (path : string) (t : option string)
    : upload_outcome := UploadTrue.

End Py.

Definition empty_disk : filesystem := {| dirs := ∅; files := ∅ |}.

(** ** Sample inputs *)

Definition mk_set (r w : Z) (d : option Z) : hevy_set :=
  {| reps := Some r; weight_lbs := Some w; duration_seconds := d |}.

(** The sample workout of [hevy_client.get_workouts]: one hour, one
    exercise of three sets. *)
Definition bench_press : hevy_exercise :=
  {| exercise_title := Some "Dumbbell Bench Press"%string;
     sets := Some [mk_set 10 50 (Some 60); mk_set 8 55 (Some 75);
                   mk_set 6 60 (Some 75)] |}.

Definition squat : hevy_exercise :=
  {| exercise_title := Some "Squat"%string;
     sets := Some [mk_set 5 225 None; mk_set 5 225 None] |}.

Definition workout_at (start_ end_ : string) (exs : list hevy_exercise)
    : hevy_workout :=
  {| title := Some "Hevy Workout"%string;
     start_time := Some start_; end_time := Some end_;
     exercises := Some exs |}.

Definition sample_workout : hevy_workout :=
  workout_at "2024-01-01T10:00:00+00:00" "2024-01-01T11:00:00+00:00"
    [bench_press; squat].

(** A session without exercises. *)
Definition empty_workout : hevy_workout :=
  workout_at "2024-01-01T10:00:00+00:00" "2024-01-01T11:00:00+00:00" [].



(** Fetched records for the sync pass. *)
Definition workout_0531 : hevy_workout :=
  workout_at "2024-05-31T23:59:59Z" "2024-06-01T00:59:59Z" [bench_press].
Definition workout_0602 : hevy_workout :=
  workout_at "2024-06-02T08:00:00Z" "2024-06-02T09:00:00Z" [bench_press].

(** A record that cannot be encoded: its [end_time] is missing. *)
Definition workout_0603_broken : hevy_workout :=
  {| title := Some "Broken"%string;
     start_time := Some "2024-06-03T08:00:00Z"%string;
     end_time := None;
     exercises := Some [bench_press] |}.

(** A record without [start_time], and one whose [start_time] does not parse. *)
Definition workout_no_start : hevy_workout :=
  {| title := Some "No start"%string;
     start_time := None;
     end_time := Some "2024-06-02T09:00:00Z"%string;
     exercises := Some [bench_press] |}.
Definition workout_bad_start : hevy_workout :=
  workout_at "yesterday" "2024-06-02T09:00:00Z" [bench_press].

(** A record whose [start_time] is the empty string. *)
Definition workout_empty_start : hevy_workout :=
  workout_at "" "2024-06-02T09:00:00Z" [bench_press].


(** A session that starts in the last second of the year 9999. *)
Definition workout_last_second : hevy_workout :=
  workout_at "9999-12-31T23:59:59Z" "9999-12-31T23:59:59Z" [bench_press].

(** A workout recorded at 10:00 local time in a zone two hours ahead of
    UTC, fetched at 08:35 UTC; the next pass runs at 08:40 UTC. *)
Definition workout_local : hevy_workout :=
  workout_at "2024-06-02T10:00:00+02:00" "2024-06-02T10:30:00+02:00"
    [bench_press].
Definition clock_0835 : Z := civil 2024 6 2 8 35 0 0.
Definition clock_0840 : Z := civil 2024 6 2 8 40 0 0.

(** A workout recorded at 08:00 local time in a zone five hours behind
    UTC: it starts at 13:00 UTC. *)
Definition workout_west : hevy_workout :=
  workout_at "2024-06-02T08:00:00-05:00" "2024-06-02T09:00:00-05:00"
    [bench_press].

(** Watermark files and clock readings for the sync pass. *)
Definition watermark_0601 : option file_content :=
  Some (Text "2024-06-01T00:00:00Z").
Definition noon_0602 : Z := civil 2024 6 2 12 0 0 0.
Definition midnight_0604 : Z := civil 2024 6 4 0 0 0 0.

Definition py_generate (w : hevy_workout) (fs : filesystem)
    : result string * filesystem :=
  generate_strength_activity_fit Py.fromisoformat w "temp_fit_files" fs.

Definition py_main (sync_file : option file_content) (now : Z)
    (fetched : option (list hevy_workout)) : pass_result :=
  main Py.fromisoformat Py.isoformat Py.upload_ok
    sync_file empty_disk now now fetched.

(** ** Vocabulary of the specification

    The definitions below follow the words of the specification; the
    theorems compare them with the code above. *)





(** The epoch offset of an instant: whole seconds since the FIT epoch, as
    line 49 computes them. *)
Definition epoch_seconds (utc_instant : Z) : Z :=
  int_total_seconds (utc_instant - instant garmin_epoch).

(** "accept(session, watermark) -> bool: true iff session.start >
    watermark" and "next_watermark(current, accepted_sessions) =
    max(current, max(start over accepted_sessions)) + 1 second", on
    instants in microseconds. *)
Definition accept (start watermark : Z) : bool := watermark <? start.
Definition next_watermark (current : Z) (accepted_starts : list Z) : Z :=
  fold_right Z.max current accepted_starts + US_PER_SECOND.

(** The start instant of a fetched record: the instant its [start_time]
    denotes, the offset taken into account. *)
Definition start_instant (fromisoformat : string -> option datetime)
    (w : hevy_workout) : option Z :=
  s ← start_time w; instant <$> fromisoformat s.

(** The start of a fetched record as the sync pass reads it (line 67):
    the wall-clock reading of a non-empty [start_time], taken as UTC
    whatever offset the string carries. *)
Definition wall_clock_start (fromisoformat : string -> option datetime)
    (w : hevy_workout) : option datetime :=
  s ← start_time w;
  if truthy s then replace_tzinfo_utc <$> fromisoformat s else None.

(** The wall-clock starts, taken as UTC, of the records of a batch that
    are later than the watermark. *)
Definition accepted_wall_starts (fromisoformat : string -> option datetime)
    (watermark : datetime) (ws : list hevy_workout) : list Z :=
  omap (fun w => d ← wall_clock_start fromisoformat w;
                 if accept (instant d) (instant watermark)
                 then Some (instant d) else None) ws.

(** The date a pass over a non-empty batch hands to [set_last_sync_date]:
    the next watermark when it is a date Python can represent. *)
Definition next_watermark_date (t : Z) : option datetime :=
  if (0 <=? t) && (t <=? MAX_WALL)
  then Some {| wall := t; tzinfo := Some 0 |}
  else None.

(** Whether the pass called the generator, or the uploader, for the record
    at position [i]. *)
Definition encode_attempted (i : nat) (l : list log_entry) : bool :=
  existsb (fun e => match e with
                    | EncodeCall j _ => Nat.eqb i j
                    | _ => false
                    end) l.
Definition upload_attempted (i : nat) (l : list log_entry) : bool :=
  existsb (fun e => match e with
                    | UploadCall j _ _ _ => Nat.eqb i j
                    | _ => false
                    end) l.

(** The running maximum of the loop of [main], without its effects. *)
Fixpoint scan_latest (fromisoformat : string -> option datetime)
    (last_sync_date latest : datetime) (ws : list hevy_workout) : datetime :=
  match ws with
  | [] => latest
  | w :: rest =>
      scan_latest fromisoformat last_sync_date
        match filter_workout fromisoformat last_sync_date latest w with
        | Proceed l => l
        | _ => latest
        end rest
  end.

(** ** The log of a pass in closed form

    What a pass logs for the workout at position [i], given the watermark
    read at the start of the pass, and the log of a whole batch. *)
Definition step_log (fromisoformat : string -> option datetime)
    (last_sync_date : datetime) (i : nat) (w : hevy_workout)
    : list log_entry :=
  match filter_workout fromisoformat last_sync_date last_sync_date w with
  | AlreadySynced => [SkipSynced i]
  | Unparsable => [SkipUnparsable i]
  | Proceed _ => [EncodeCall i (strength_activity_header fromisoformat w)]
  end.

Fixpoint expected_log (fromisoformat : string -> option datetime)
    (last_sync_date : datetime) (i : nat) (ws : list hevy_workout)
    : list log_entry :=
  match ws with
  | [] => []
  | w :: rest =>
      step_log fromisoformat last_sync_date i w
      ++ expected_log fromisoformat last_sync_date (S i) rest
  end.

(** The position a log entry decides, the paths of the files a pass
    generated, and the number of uploads that returned [True]. *)
Definition decision_index (e : log_entry) : option nat :=
  match e with
  | SkipSynced i | SkipUnparsable i | EncodeCall i _ => Some i
  | _ => None
  end.


Definition upload_succeeded (e : log_entry) : bool :=
  match e with
  | UploadCall _ _ _ UploadTrue => true
  | _ => false
  end.

(** An entry of the log that tells of an upload or of a removed file. *)
Definition after_encoding (e : log_entry) : bool :=
  match e with
  | UploadCall _ _ _ _ | Removed _ => true
  | _ => false
  end.

(** An entry of the log that tells of a call of the generator. *)
Definition is_encode_call (e : log_entry) : bool :=
  match e with
  | EncodeCall _ _ => true
  | _ => false
  end.

Definition nbsp : string := String "160"%char EmptyString.
Definition watermark_nbsp : option file_content :=
  Some (Text (String.append nbsp (String.append "2024-06-01T00:00:00Z" nbsp))).

(** ** [hevy_sync/sync.py] and [HevyWorkout.json_dict] of [hevy_sync/hevy.py]

    The older module works on workout objects whose exercises are raw
    dictionaries.  Start times and weights are kept abstract: [Time] is
    the datetime of a workout, [Weight] a Python number with the float
    operations the code applies to it.  The class [FitEncoderStrength] is
    not part of the sources; the encoder object is represented by the
    calls made on it, in order. *)

Module HevySync.

Section Model.

Variable Time : Type.
Variable Weight : Type.
(** The default [0.0] of [s.get("weight", 0.0)], the initial [0.0] of the
    running sums, float addition, and [(weight or 0) * reps]. *)
Variable zero_weight : Weight.
Variable add_weight : Weight -> Weight -> Weight.
Variable volume : option Weight -> Z -> Weight.

Record raw_set := {
  set_weight : option Weight;
  set_reps : option Z
}.

Record raw_exercise := {
  name : option string;
  raw_sets : option (list raw_set)
}.

Record workout := {
  workout_start_time : Time;
  workout_exercises : list raw_exercise
}.

Record entry := {
  date_time : Time;
  exercise_name : string;
  weight : Weight;
  entry_reps : Z;
  type : string
}.

(** Lines 16-22 of [sync.py]. *)
Definition entry_of (w : workout) (ex : raw_exercise) (s : raw_set) : entry :=
  {| date_time := workout_start_time w;
     exercise_name := default "Unbekannt"%string (name ex);
     weight := default zero_weight (set_weight s);
     entry_reps := default 0 (set_reps s);
     type := "strength"%string |}.

(** [prepare_hevy_syncdata], lines 10-25. *)
Fixpoint prepare_sets (w : workout) (ex : raw_exercise) (ss : list raw_set)
    (syncdata : list entry) : list entry :=
  match ss with
  | [] => syncdata
  | s :: rest => prepare_sets w ex rest (syncdata ++ [entry_of w ex s])
  end.

Fixpoint prepare_exercises (w : workout) (exs : list raw_exercise)
    (syncdata : list entry) : list entry :=
  match exs with
  | [] => syncdata
  | ex :: rest =>
      prepare_exercises w rest
        (prepare_sets w ex (default [] (raw_sets ex)) syncdata)
  end.

Fixpoint prepare_workouts (ws : list workout) (syncdata : list entry)
    : list entry :=
  match ws with
  | [] => syncdata
  | w :: rest =>
      prepare_workouts rest (prepare_exercises w (workout_exercises w) syncdata)
  end.

Definition prepare_hevy_syncdata (workouts : list workout) : list entry :=
  prepare_workouts workouts [].

(** The methods of the encoder object. *)
Inductive fit_call :=
| write_file_info
| write_file_creator
| write_device_info (timestamp : Time)
| write_strength_training (timestamp : Time) (exercise : string)
    (w : Weight) (r : Z)
| finish.

Fixpoint write_entries (syncdata : list entry) (fit : list fit_call)
    : list fit_call :=
  match syncdata with
  | [] => fit
  | e :: rest =>
      write_entries rest
        (fit ++ [write_strength_training (date_time e) (exercise_name e)
                   (weight e) (entry_reps e)])
  end.

(** [generate_strength_fitdata], lines 28-48; [now] is [datetime.now()]. *)
Definition generate_strength_fitdata (now : Time) (syncdata : list entry)
    : option (list fit_call) :=
  match syncdata with
  | [] => None
  | _ :: _ =>
      let fit := [write_file_info; write_file_creator; write_device_info now] in
      let fit := write_entries syncdata fit in
      Some (fit ++ [finish])
  end.

(** The number of sets of a batch of workouts. *)
Definition count_sets (exs : list raw_exercise) : nat :=
  list_sum (map (fun ex => length (default [] (raw_sets ex))) exs).
Definition total_sets (ws : list workout) : nat :=
  list_sum (map (fun w => count_sets (workout_exercises w)) ws).

(** [HevyWorkout.json_dict], [hevy.py] lines 141-163: the entries of
    ["Exercises"] and the three totals. *)
Record exercise_summary := {
  Name : string;
  Sets : nat;
  TotalReps : Z;
  TotalWeight : Weight
}.

Record workout_summary := {
  Exercises : list exercise_summary;
  TotalSets : nat;
  TotalVolume : Weight;
  ExerciseCount : nat
}.

Fixpoint sum_sets (ss : list raw_set) (ex_reps : Z) (ex_volume : Weight)
    : Z * Weight :=
  match ss with
  | [] => (ex_reps, ex_volume)
  | s :: rest =>
      let r := default 0 (set_reps s) in
      sum_sets rest (ex_reps + r)
        (add_weight ex_volume (volume (set_weight s) r))
  end.

Fixpoint summarise (exs : list raw_exercise) (acc : list exercise_summary)
    (total_volume : Weight) (total_sets0 : nat)
    : list exercise_summary * Weight * nat :=
  match exs with
  | [] => (acc, total_volume, total_sets0)
  | ex :: rest =>
      let ss := default [] (raw_sets ex) in
      let '(ex_reps, ex_volume) := sum_sets ss 0 zero_weight in
      summarise rest
        (acc ++ [{| Name := default "Unbekannt"%string (name ex);
                    Sets := length ss;
                    TotalReps := ex_reps;
                    TotalWeight := ex_volume |}])
        (add_weight total_volume ex_volume)
        (total_sets0 + length ss)%nat
  end.

Definition json_dict (w : workout) : workout_summary :=
  let '(exs, total_volume, total_sets0) :=
    summarise (workout_exercises w) [] zero_weight 0%nat in
  {| Exercises := exs;
     TotalSets := total_sets0;
     TotalVolume := total_volume;
     ExerciseCount := length (workout_exercises w) |}.

End Model.

Arguments set_weight {Weight} _.
Arguments set_reps {Weight} _.
Arguments name {Weight} _.
Arguments raw_sets {Weight} _.
Arguments workout_start_time {Time Weight} _.
Arguments workout_exercises {Time Weight} _.
Arguments date_time {Time Weight} _.
Arguments exercise_name {Time Weight} _.
Arguments weight {Time Weight} _.
Arguments entry_reps {Time Weight} _.
Arguments type {Time Weight} _.
Arguments entry_of {Time Weight} zero_weight w ex s.
Arguments prepare_sets {Time Weight} zero_weight w ex ss syncdata.
Arguments prepare_exercises {Time Weight} zero_weight w exs syncdata.
Arguments prepare_workouts {Time Weight} zero_weight ws syncdata.
Arguments prepare_hevy_syncdata {Time Weight} zero_weight workouts.
Arguments write_file_info {Time Weight}.
Arguments write_file_creator {Time Weight}.
Arguments write_device_info {Time Weight} timestamp.
Arguments write_strength_training {Time Weight} timestamp exercise w r.
Arguments finish {Time Weight}.
Arguments write_entries {Time Weight} syncdata fit.
Arguments generate_strength_fitdata {Time Weight} now syncdata.
Arguments count_sets {Weight} exs.
Arguments total_sets {Time Weight} ws.
Arguments Name {Weight} _.
Arguments Sets {Weight} _.
Arguments TotalReps {Weight} _.
Arguments TotalWeight {Weight} _.
Arguments Exercises {Weight} _.
Arguments TotalSets {Weight} _.
Arguments TotalVolume {Weight} _.
Arguments ExerciseCount {Weight} _.
Arguments sum_sets {Weight} add_weight volume ss ex_reps ex_volume.
Arguments summarise {Weight} zero_weight add_weight volume exs acc total_volume total_sets0.
Arguments json_dict {Time Weight} zero_weight add_weight volume w.

End HevySync.

(** A workout object with one exercise of two sets, one exercise without a
    ["sets"] key and one with an empty list. *)
Definition raw_workout : HevySync.workout Z Z :=
  {| HevySync.workout_start_time := 1717315200;
     HevySync.workout_exercises :=
       [ {| HevySync.name := Some "Squat"%string;
            HevySync.raw_sets :=
              Some [ {| HevySync.set_weight := Some 100;
                        HevySync.set_reps := Some 5 |};
                     {| HevySync.set_weight := None;
                        HevySync.set_reps := None |} ] |};
         {| HevySync.name := None; HevySync.raw_sets := None |};
         {| HevySync.name := Some "Plank"%string;
            HevySync.raw_sets := Some [] |} ] |}.

(** A workout object none of whose exercises has a set. *)
Definition raw_workout_no_sets : HevySync.workout Z Z :=
  {| HevySync.workout_start_time := 1717315200;
     HevySync.workout_exercises :=
       [ {| HevySync.name := None; HevySync.raw_sets := None |};
         {| HevySync.name := Some "Plank"%string;
            HevySync.raw_sets := Some [] |} ] |}.


(** * Properties of the generator *)

Example py_fromisoformat_z :
  Py.fromisoformat "2024-06-02T08:00:00Z"
  = Some (datetime_utc 2024 6 2 8 0 0).
Proof. vm_compute. reflexivity. Qed.

Example py_isoformat_utc :
  Py.isoformat (datetime_utc 2024 6 2 8 0 1) = "2024-06-02T08:00:01+00:00"%string.
Proof. vm_compute. reflexivity. Qed.

Example garmin_epoch_unix :
  instant garmin_epoch - civil 1970 1 1 0 0 0 0 = 631065600 * US_PER_SECOND.
Proof. vm_compute. reflexivity. Qed.

(** ** Seconds as a double *)






(** From 2^34 seconds on a double no longer resolves microseconds: the
    last microsecond of a second rounds up to the next second. *)
Example int_total_seconds_rounds :
  int_total_seconds (8589934592 * US_PER_SECOND + 999999) = 8589934592
  /\ int_total_seconds (17179869184 * US_PER_SECOND + 999999) = 17179869185.
Proof. vm_compute. split; reflexivity. Qed.

(** ** The two times of a session *)

Lemma instant_ensure_utc (d : datetime) : instant (ensure_utc d) = instant d.
Proof. unfold ensure_utc, instant. destruct (tzinfo d) eqn:E; simpl; rewrite ?E; reflexivity. Qed.

Lemma tzinfo_ensure_utc (d : datetime) :
  tzinfo (ensure_utc d) = Some (default 0 (tzinfo d)).
Proof. unfold ensure_utc. destruct (tzinfo d) eqn:E; simpl; rewrite ?E; reflexivity. Qed.

Lemma wall_ensure_utc (d : datetime) : wall (ensure_utc d) = wall d.
Proof. unfold ensure_utc. destruct (tzinfo d); reflexivity. Qed.

(** Once both operands are labelled, the subtraction of line 52 is defined. *)
Lemma dt_sub_ensure_utc (a b : datetime) :
  dt_sub (ensure_utc a) (ensure_utc b) = Some (instant a - instant b).
Proof.
  unfold dt_sub. rewrite !tzinfo_ensure_utc, !wall_ensure_utc. reflexivity.
Qed.

(** Lines 49-50 on a labelled datetime. *)
Lemma fit_timestamp_ensure_utc (d : datetime) :
  fit_timestamp (ensure_utc d) = Ok (epoch_seconds (instant d)).
Proof.
  unfold fit_timestamp, dt_sub, epoch_seconds.
  rewrite tzinfo_ensure_utc, wall_ensure_utc. reflexivity.
Qed.




Section GeneratorFacts.

Variable fromisoformat : string -> option datetime.

(** Whatever the session, lines 37-75 end in an exception. *)
Lemma header_never_ok (w : hevy_workout) :
  is_ok (strength_activity_header fromisoformat w) = false.
Proof.
  unfold strength_activity_header.
  destruct (start_time w) as [s|]; [|reflexivity]. cbn [or_raise mbind result_bind].
  destruct (fromisoformat s) as [ds|]; [|reflexivity].
  cbn [or_raise mbind result_bind].
  destruct (end_time w) as [e|]; [|reflexivity]. cbn [or_raise mbind result_bind].
  destruct (fromisoformat e) as [de|]; [|reflexivity].
  cbn [or_raise mbind result_bind].
  rewrite !fit_timestamp_ensure_utc. cbn [mbind result_bind].
  rewrite dt_sub_ensure_utc. cbn [or_raise mbind result_bind].
  destruct (set_time_created _); reflexivity.
Qed.

Lemma header_raises (w : hevy_workout) :
  exists e, strength_activity_header fromisoformat w = Raise e.
Proof.
  pose proof (header_never_ok w) as H.
  destruct (strength_activity_header fromisoformat w) as [p|e];
    [discriminate|eauto].
Qed.


Lemma path_exists_empty (fs : filesystem) : path_exists fs "" = false.
Proof. reflexivity. Qed.

(** The outcome and the disk of a call in closed form. *)
Lemma generate_fst (w : hevy_workout) (dir : string) (fs : filesystem) :
  fst (generate_strength_activity_fit fromisoformat w dir fs)
  = if truthy dir then strength_activity_header fromisoformat w
    else Raise FileNotFoundError.
Proof.
  unfold generate_strength_activity_fit, path_exists, makedirs.
  destruct (truthy dir); [|reflexivity]. cbn [andb].
  destruct (dir_exists fs dir || file_exists fs dir); reflexivity.
Qed.

Lemma generate_snd (w : hevy_workout) (dir : string) (fs : filesystem) :
  snd (generate_strength_activity_fit fromisoformat w dir fs)
  = if path_exists fs dir || negb (truthy dir) then fs
    else {| dirs := {[ dir ]} ∪ dirs fs; files := files fs |}.
Proof.
  unfold generate_strength_activity_fit, path_exists, makedirs.
  destruct (truthy dir); [|reflexivity]. cbn [andb negb].
  destruct (dir_exists fs dir || file_exists fs dir); reflexivity.
Qed.

Lemma generate_never_ok (w : hevy_workout) (dir : string) (fs : filesystem) :
  is_ok (fst (generate_strength_activity_fit fromisoformat w dir fs)) = false.
Proof.
  rewrite generate_fst. destruct (truthy dir); [apply header_never_ok|reflexivity].
Qed.


Lemma generate_files (w : hevy_workout) (dir : string) (fs : filesystem) :
  files (snd (generate_strength_activity_fit fromisoformat w dir fs)) = files fs.
Proof.
  rewrite generate_snd. destruct (path_exists fs dir || negb (truthy dir)); reflexivity.
Qed.

Lemma generate_dirs (w : hevy_workout) (dir : string) (fs : filesystem) :
  dirs fs ⊆ dirs (snd (generate_strength_activity_fit fromisoformat w dir fs)).
Proof.
  rewrite generate_snd. destruct (path_exists fs dir || negb (truthy dir)).
  - reflexivity.
  - cbn [dirs]. apply union_subseteq_r.
Qed.

Lemma generate_new_dirs (w : hevy_workout) (dir : string) (fs : filesystem)
    (d : string) :
  d ∈ dirs (snd (generate_strength_activity_fit fromisoformat w dir fs)) ->
  d ∈ dirs fs
  \/ (d = dir /\ dir <> EmptyString /\ path_exists fs dir = false).
Proof.
  rewrite generate_snd.
  destruct (path_exists fs dir) eqn:E; cbn [orb]; [auto|].
  destruct dir as [|c rest]; cbn [truthy negb]; [auto|].
  cbn [dirs]. intros [H|H]%elem_of_union; [|auto].
  apply elem_of_singleton in H. right. split; [exact H|]. split; congruence.
Qed.

Lemma truthy_nonempty (s : string) : s <> EmptyString -> truthy s = true.
Proof. destruct s; [congruence|reflexivity]. Qed.

Lemma generate_dir_exists (w : hevy_workout) (dir : string) (fs : filesystem) :
  dir <> EmptyString ->
  path_exists (snd (generate_strength_activity_fit fromisoformat w dir fs)) dir
  = true.
Proof.
  intros Hne. rewrite generate_snd. rewrite (truthy_nonempty dir Hne).
  cbn [negb]. rewrite orb_false_r.
  destruct (path_exists fs dir) eqn:E; [exact E|].
  unfold path_exists, dir_exists. cbn [dirs].
  rewrite (truthy_nonempty dir Hne). cbn [andb].
  rewrite bool_decide_eq_true_2; [reflexivity|].
  apply elem_of_union_l, elem_of_singleton. reflexivity.
Qed.

End GeneratorFacts.


(** ** The message sequence *)

(** C1 (defect of the code): the generator builds no message sequence.  On
    the sample workout of the Hevy client (2024-01-01T10:00:00+00:00, two
    exercises) it raises at line 65, where the start, 1073037600 seconds
    after the FIT epoch, is given to [time_created], a field that takes
    milliseconds since the Unix epoch; no message has been added to the
    builder by then and no file is written.  No session fares better: the
    generator returns for none. *)
Theorem C1_no_message_sequence :
  fst (py_generate sample_workout empty_disk)
  = Raise (FitEncodingError 1073037600)
  /\ files (snd (py_generate sample_workout empty_disk)) = ∅
  /\ forall fromisoformat w dir fs,
       is_ok (fst (generate_strength_activity_fit fromisoformat w dir fs))
       = false.
Proof.
  split; [vm_compute; reflexivity|]. split; [vm_compute; reflexivity|].
  intros. apply generate_never_ok.
Qed.

(** C7 (defect of the code): no Record is emitted.  On a session without
    exercises (2024-01-01T10:00:00+00:00 to 11:00:00+00:00) the generator
    raises at line 65 as it does for every session whose times parse; the
    trailing Record of lines 129-134 is never built and no file is
    written. *)
Theorem C7_no_record_is_emitted :
  exercises empty_workout = Some []
  /\ fst (py_generate empty_workout empty_disk)
     = Raise (FitEncodingError 1073037600)
  /\ files (snd (py_generate empty_workout empty_disk)) = ∅.
Proof.
  split; [reflexivity|]. split; vm_compute; reflexivity.
Qed.

(** ** Sessions the specification wants refused *)



(** ** What a call does to the disk *)




(** ** Times without an offset *)



(** * Further properties of the generator *)






(** * Properties of the sync pass *)

Lemma fold_max_shift (l : list Z) (a x : Z) :
  fold_right Z.max (Z.max a x) l = Z.max x (fold_right Z.max a l).
Proof. induction l as [|y l IH]; simpl; [|rewrite IH]; lia. Qed.

Lemma fold_max_ge_base (l : list Z) (a : Z) : a <= fold_right Z.max a l.
Proof. induction l as [|y l IH]; simpl; lia. Qed.

Lemma fold_max_ge_elem (l : list Z) (a x : Z) :
  In x l -> x <= fold_right Z.max a l.
Proof.
  induction l as [|y l IH]; simpl; [tauto|].
  intros [->|H]; [lia|]. specialize (IH H). lia.
Qed.

Lemma instant_replace_utc (d : datetime) : instant (replace_tzinfo_utc d) = wall d.
Proof. unfold instant. simpl. lia. Qed.

(** Line 99 on a UTC datetime. *)
Lemma dt_add_second (d : datetime) :
  tzinfo d = Some 0 ->
  dt_add d (timedelta_seconds 1) = next_watermark_date (instant d + US_PER_SECOND).
Proof.
  intros H. unfold dt_add, next_watermark_date, instant, timedelta_seconds.
  rewrite H. unfold default, id.
  replace (wall d - 0 + US_PER_SECOND) with (wall d + 1 * US_PER_SECOND) by lia.
  reflexivity.
Qed.

Lemma next_watermark_date_some (t : Z) (d : datetime) :
  next_watermark_date t = Some d ->
  instant d = t /\ tzinfo d = Some 0 /\ 0 <= t <= MAX_WALL.
Proof.
  unfold next_watermark_date.
  destruct (Z.leb_spec 0 t) as [H0|H0];
    destruct (Z.leb_spec t MAX_WALL) as [H1|H1];
    cbn [andb]; try discriminate.
  intros H. injection H as <-. unfold instant, default, id.
  cbn [wall tzinfo]. repeat split; try reflexivity; lia.
Qed.

Lemma next_watermark_date_in_range (t : Z) :
  0 <= t <= MAX_WALL ->
  next_watermark_date t = Some {| wall := t; tzinfo := Some 0 |}.
Proof.
  intros [H0 H1]. unfold next_watermark_date.
  destruct (Z.leb_spec 0 t); [|lia].
  destruct (Z.leb_spec t MAX_WALL); [reflexivity|lia].
Qed.

Lemma next_watermark_date_out_of_range (t : Z) :
  t < 0 \/ MAX_WALL < t -> next_watermark_date t = None.
Proof.
  intros H. unfold next_watermark_date.
  destruct (Z.leb_spec 0 t); destruct (Z.leb_spec t MAX_WALL);
    cbn [andb]; try reflexivity; lia.
Qed.

Section SyncFacts.

Variable fromisoformat : string -> option datetime.
Variable isoformat : datetime -> string.
Variable upload_activity_file : nat -> string -> option string -> upload_outcome.

Lemma get_last_sync_date_tzinfo (sync_file : option file_content) (now : Z)
    (W : datetime) :
  get_last_sync_date fromisoformat sync_file now = Ok W -> tzinfo W = Some 0.
Proof.
  unfold get_last_sync_date.
  destruct sync_file as [[|content]|]; [discriminate| |].
  - destruct (truthy (strip content)).
    + destruct (fromisoformat (strip content)); intros H; injection H as <-;
        reflexivity.
    + intros H; injection H as <-; reflexivity.
  - intros H; injection H as <-; reflexivity.
Qed.

(** A watermark file that holds text, or no file at all, is read without
    an exception. *)
Lemma get_last_sync_date_text (sync_file : option string) (now : Z) :
  exists W,
    get_last_sync_date fromisoformat (Text <$> sync_file) now = Ok W.
Proof.
  unfold get_last_sync_date. destruct sync_file as [content|]; simpl; [|eauto].
  destruct (truthy (strip content)); [|eauto].
  destruct (fromisoformat (strip content)); eauto.
Qed.

Lemma wall_clock_start_tzinfo (w : hevy_workout) (d : datetime) :
  wall_clock_start fromisoformat w = Some d -> tzinfo d = Some 0.
Proof.
  unfold wall_clock_start. destruct (start_time w) as [s|]; [|discriminate].
  simpl. destruct (truthy s); [|discriminate].
  destruct (fromisoformat s); [|discriminate]. simpl.
  intros H. injection H as <-. reflexivity.
Qed.

(** The filter in terms of the start the pass reads. *)
Lemma filter_workout_parsed (W latest : datetime) (w : hevy_workout)
    (d : datetime) :
  wall_clock_start fromisoformat w = Some d ->
  filter_workout fromisoformat W latest w
  = if accept (instant d) (instant W)
    then Proceed (if dt_gtb d latest then d else latest)
    else AlreadySynced.
Proof.
  unfold wall_clock_start, filter_workout, accept, dt_leb.
  destruct (start_time w) as [s|]; [|discriminate]. simpl.
  destruct (truthy s); [|discriminate].
  destruct (fromisoformat s) as [d0|]; [|discriminate]. simpl.
  intros H. injection H as <-.
  destruct (Z.leb_spec (instant (replace_tzinfo_utc d0)) (instant W));
    destruct (Z.ltb_spec (instant W) (instant (replace_tzinfo_utc d0)));
    try lia; try reflexivity.
  destruct (dt_gtb _ latest); reflexivity.
Qed.

Lemma filter_workout_unread (W latest : datetime) (w : hevy_workout) :
  wall_clock_start fromisoformat w = None ->
  filter_workout fromisoformat W latest w = Proceed latest
  \/ filter_workout fromisoformat W latest w = Unparsable.
Proof.
  unfold wall_clock_start, filter_workout.
  destruct (start_time w) as [s|]; [|auto]. simpl.
  destruct (truthy s); [|auto].
  destruct (fromisoformat s); [discriminate|auto].
Qed.

(** What the filter decides does not depend on the running maximum. *)
Lemma filter_workout_kind (W latest latest' : datetime) (w : hevy_workout) :
  match filter_workout fromisoformat W latest w,
        filter_workout fromisoformat W latest' w with
  | AlreadySynced, AlreadySynced | Unparsable, Unparsable
  | Proceed _, Proceed _ => True
  | _, _ => False
  end.
Proof.
  unfold filter_workout. destruct (start_time w) as [s|]; [|exact I].
  destruct (truthy s); [|exact I].
  destruct (fromisoformat s) as [d|]; [|exact I].
  destruct (dt_leb _ W); [exact I|].
  destruct (dt_gtb _ latest); destruct (dt_gtb _ latest'); exact I.
Qed.

Lemma cleanup_latest (st : loop_state) :
  latest_workout_time (cleanup st) = latest_workout_time st.
Proof.
  unfold cleanup. destruct (fit_file_path st); [|reflexivity].
  destruct (file_exists _ _); reflexivity.
Qed.

Lemma encode_and_upload_latest (i : nat) (st : loop_state) (w : hevy_workout) :
  latest_workout_time (encode_and_upload fromisoformat
       upload_activity_file i st w) = latest_workout_time st.
Proof.
  unfold encode_and_upload.
  destruct (generate_strength_activity_fit _ _ _ _) as [[path|e] fs1];
    rewrite cleanup_latest; reflexivity.
Qed.

Lemma process_workout_latest (W : datetime) (i : nat) (st : loop_state)
    (w : hevy_workout) :
  latest_workout_time (process_workout fromisoformat
       upload_activity_file W i st w)
  = match filter_workout fromisoformat W (latest_workout_time st) w with
    | Proceed l => l
    | _ => latest_workout_time st
    end.
Proof.
  unfold process_workout.
  destruct (filter_workout _ _ _ _); try reflexivity.
  rewrite encode_and_upload_latest. reflexivity.
Qed.

Lemma process_workouts_latest (W : datetime) (ws : list hevy_workout) :
  forall i st,
    latest_workout_time (process_workouts fromisoformat
       upload_activity_file W i st ws)
    = scan_latest fromisoformat W (latest_workout_time st) ws.
Proof.
  induction ws as [|w rest IH]; intros i st; [reflexivity|].
  cbn [process_workouts scan_latest]. rewrite IH, process_workout_latest.
  reflexivity.
Qed.

Lemma scan_latest_instant (W : datetime) (ws : list hevy_workout) :
  forall latest,
    instant (scan_latest fromisoformat W latest ws)
    = fold_right Z.max (instant latest) (accepted_wall_starts fromisoformat W ws).
Proof.
  induction ws as [|w rest IH]; intros latest; [reflexivity|].
  cbn [scan_latest]. rewrite IH. unfold accepted_wall_starts.
  cbn [omap list_omap].
  destruct (wall_clock_start fromisoformat w) as [d|] eqn:Ed.
  - rewrite (filter_workout_parsed W latest w d Ed). cbn [mbind option_bind].
    destruct (accept (instant d) (instant W)); [|reflexivity].
    cbn [fold_right]. unfold dt_gtb.
    destruct (Z.ltb_spec (instant latest) (instant d)).
    + rewrite <- fold_max_shift. f_equal; lia.
    + rewrite <- fold_max_shift. f_equal; lia.
  - cbn [mbind option_bind].
    destruct (filter_workout_unread W latest w Ed) as [-> | ->]; reflexivity.
Qed.

Lemma scan_latest_tzinfo (W : datetime) (ws : list hevy_workout) :
  forall latest,
    tzinfo latest = Some 0 ->
    tzinfo (scan_latest fromisoformat W latest ws) = Some 0.
Proof.
  induction ws as [|w rest IH]; intros latest H; [exact H|].
  cbn [scan_latest]. apply IH.
  destruct (wall_clock_start fromisoformat w) as [d|] eqn:Ed.
  - rewrite (filter_workout_parsed W latest w d Ed).
    destruct (accept _ _); [|exact H].
    destruct (dt_gtb d latest); [|exact H].
    apply (wall_clock_start_tzinfo w d Ed).
  - destruct (filter_workout_unread W latest w Ed) as [-> | ->]; exact H.
Qed.

Lemma scan_latest_app (W : datetime) (ws1 ws2 : list hevy_workout) :
  forall latest,
    scan_latest fromisoformat W latest (ws1 ++ ws2)
    = scan_latest fromisoformat W (scan_latest fromisoformat W latest ws1) ws2.
Proof.
  induction ws1 as [|w rest IH]; intros latest; [reflexivity|].
  cbn [app scan_latest]. apply IH.
Qed.

(** The outcome of line 99 for a pass over a non-empty batch. *)
Lemma main_written (sync_file : option file_content) (fs : filesystem)
    (now_load now_pass : Z) (ws : list hevy_workout) (W : datetime) :
  ws <> [] ->
  get_last_sync_date fromisoformat sync_file now_load = Ok W ->
  written (main fromisoformat isoformat upload_activity_file
             sync_file fs now_load now_pass (Some ws))
  = dt_add (scan_latest fromisoformat W W ws) (timedelta_seconds 1)
  /\ sync_file_after (main fromisoformat isoformat upload_activity_file
                        sync_file fs now_load now_pass (Some ws))
     = match dt_add (scan_latest fromisoformat W W ws) (timedelta_seconds 1) with
       | Some next => Some (Text (isoformat next))
       | None => sync_file
       end
  /\ raised (main fromisoformat isoformat upload_activity_file
               sync_file fs now_load now_pass (Some ws))
     = match dt_add (scan_latest fromisoformat W W ws) (timedelta_seconds 1) with
       | Some next => None
       | None => Some OverflowError
       end.
Proof.
  intros Hne HW. destruct ws as [|w rest]; [congruence|].
  unfold main. rewrite HW.
  rewrite process_workouts_latest. cbn [latest_workout_time].
  destruct (dt_add _ _); repeat split; reflexivity.
Qed.

(** The same in the words of the specification. *)
Lemma main_written_closed (sync_file : option file_content) (fs : filesystem)
    (now_load now_pass : Z) (ws : list hevy_workout) (W : datetime) :
  ws <> [] ->
  get_last_sync_date fromisoformat sync_file now_load = Ok W ->
  written (main fromisoformat isoformat upload_activity_file
             sync_file fs now_load now_pass (Some ws))
  = next_watermark_date
      (next_watermark (instant W) (accepted_wall_starts fromisoformat W ws)).
Proof.
  intros Hne HW.
  destruct (main_written sync_file fs now_load now_pass ws W Hne HW) as [-> _].
  rewrite dt_add_second
    by (apply scan_latest_tzinfo, (get_last_sync_date_tzinfo _ _ _ HW)).
  rewrite scan_latest_instant. reflexivity.
Qed.

Lemma accepted_wall_starts_In (W : datetime) (ws : list hevy_workout)
    (w : hevy_workout) (d : datetime) :
  In w ws -> wall_clock_start fromisoformat w = Some d ->
  accept (instant d) (instant W) = true ->
  In (instant d) (accepted_wall_starts fromisoformat W ws).
Proof.
  intros Hin Hd Hacc. unfold accepted_wall_starts.
  apply list_elem_of_In, list_elem_of_omap. exists w.
  split; [apply list_elem_of_In, Hin|]. rewrite Hd. simpl. rewrite Hacc.
  reflexivity.
Qed.

(** A record that passed the filter is behind the watermark a completed
    pass writes, whatever became of its encoding and upload. *)
Lemma written_covers_accepted (sync_file : option file_content)
    (fs : filesystem) (now_load now_pass : Z) (ws : list hevy_workout)
    (w : hevy_workout) (d W W' : datetime) :
  get_last_sync_date fromisoformat sync_file now_load = Ok W ->
  In w ws -> wall_clock_start fromisoformat w = Some d ->
  accept (instant d) (instant W) = true ->
  written (main fromisoformat isoformat upload_activity_file
             sync_file fs now_load now_pass (Some ws)) = Some W' ->
  instant d + US_PER_SECOND <= instant W'
  /\ forall latest, filter_workout fromisoformat W' latest w = AlreadySynced.
Proof.
  intros HW Hin Hd Hacc Hw.
  assert (Hne : ws <> []) by (intros ->; inversion Hin).
  rewrite (main_written_closed sync_file fs now_load now_pass ws W Hne HW) in Hw.
  apply next_watermark_date_some in Hw as (Hi & _ & _).
  pose proof (fold_max_ge_elem _ (instant W) _
    (accepted_wall_starts_In _ ws w d Hin Hd Hacc)) as Hge.
  unfold next_watermark in Hi. split; [lia|].
  intros latest. rewrite (filter_workout_parsed W' latest w d Hd).
  unfold accept, US_PER_SECOND in *.
  destruct (Z.ltb_spec (instant W') (instant d)); [lia|reflexivity].
Qed.

End SyncFacts.

(** ** The next watermark *)

(** C5, as the specification states it, fails twice.  On an empty batch:
    with the watermark 2024-06-01T00:00:00Z and nothing fetched at noon of
    2024-06-02, the pass stores the clock reading, not the watermark plus
    one second.  On a start with an offset: a session that starts at
    10:00+02:00, that is at 08:00 UTC, makes the pass store 10:00:01 UTC,
    where the maximum over the start instants plus one second is 08:00:01
    UTC. *)
Lemma C5_watermark_departs_from_formula :
  (get_last_sync_date Py.fromisoformat watermark_0601 noon_0602
   = Ok (datetime_utc 2024 6 1 0 0 0)
   /\ written (py_main watermark_0601 noon_0602 (Some []))
      = Some (datetime_utc 2024 6 2 12 0 0)
   /\ instant <$> written (py_main watermark_0601 noon_0602 (Some []))
      <> Some (next_watermark (instant (datetime_utc 2024 6 1 0 0 0)) []))
  /\ (start_instant Py.fromisoformat workout_local
      = Some (instant (datetime_utc 2024 6 2 8 0 0))
      /\ written (py_main watermark_0601 clock_0835 (Some [workout_local]))
         = Some (datetime_utc 2024 6 2 10 0 1)
      /\ instant <$> written (py_main watermark_0601 clock_0835
                                (Some [workout_local]))
         <> Some (next_watermark (instant (datetime_utc 2024 6 1 0 0 0))
                    [instant (datetime_utc 2024 6 2 8 0 0)])).
Proof.
  split; (split; [vm_compute; reflexivity|]);
    (split; [vm_compute; reflexivity|]); vm_compute; discriminate.
Qed.

(** C5 (amended): for every pass whose fetched batch is not empty, the
    date handed to the store at pass end is max(watermark read at pass
    start, maximum over the accepted sessions of the wall-clock reading
    of start_time taken as UTC, whatever offset it carries) + 1 second,
    and the pass writes it exactly when that date is one Python can
    represent (otherwise line 99 raises and nothing is written); with
    prior watermark 2024-06-01T00:00:00Z and fetched sessions starting
    2024-05-31T23:59:59Z and 2024-06-02T08:00:00Z the stored next
    watermark is 2024-06-02T08:00:01Z.  When the fetched batch is empty
    the pass stores its current time instead. *)
Theorem C5_next_watermark :
  (forall fromisoformat isoformat upload sync_file fs now_load now_pass ws W,
     ws <> [] ->
     get_last_sync_date fromisoformat sync_file now_load = Ok W ->
     written (main fromisoformat isoformat upload
                sync_file fs now_load now_pass (Some ws))
     = next_watermark_date
         (next_watermark (instant W)
            (accepted_wall_starts fromisoformat W ws))
     /\ forall d,
          written (main fromisoformat isoformat upload
                     sync_file fs now_load now_pass (Some ws)) = Some d ->
          sync_file_after (main fromisoformat isoformat upload
                             sync_file fs now_load now_pass (Some ws))
          = Some (Text (isoformat d))
          /\ tzinfo d = Some 0
          /\ instant d
             = next_watermark (instant W)
                 (accepted_wall_starts fromisoformat W ws))
  /\ (forall isoformat upload fs now_load now_pass,
        accepted_wall_starts Py.fromisoformat (datetime_utc 2024 6 1 0 0 0)
          [workout_0531; workout_0602]
        = [instant (datetime_utc 2024 6 2 8 0 0)]
        /\ written (main Py.fromisoformat isoformat upload
                      watermark_0601 fs now_load now_pass
                      (Some [workout_0531; workout_0602]))
           = Some (datetime_utc 2024 6 2 8 0 1))
  /\ (forall fromisoformat isoformat upload sync_file fs now_load now_pass W,
        get_last_sync_date fromisoformat sync_file now_load = Ok W ->
        written (main fromisoformat isoformat upload
                   sync_file fs now_load now_pass (Some []))
        = Some (now_utc now_pass)
        /\ sync_file_after (main fromisoformat isoformat upload
                              sync_file fs now_load now_pass (Some []))
           = Some (Text (isoformat (now_utc now_pass)))).
Proof.
  split; [|split].
  - intros fromisoformat isoformat upload sync_file fs now_load now_pass ws W
           Hne HW.
    pose proof (main_written_closed fromisoformat isoformat upload sync_file fs
                  now_load now_pass ws W Hne HW) as Hc.
    split; [exact Hc|]. intros d Hd.
    destruct (main_written fromisoformat isoformat upload sync_file fs
                now_load now_pass ws W Hne HW) as (Hw & Hf & _).
    rewrite Hf. rewrite Hw in Hd. rewrite Hd.
    rewrite Hc in Hw. rewrite <- Hw in Hd.
    apply next_watermark_date_some in Hd as (Hi & Ht & _). auto.
  - intros. split; [vm_compute; reflexivity|].
    rewrite (main_written_closed Py.fromisoformat isoformat upload
               watermark_0601 fs now_load now_pass
               [workout_0531; workout_0602] (datetime_utc 2024 6 1 0 0 0));
      [vm_compute; reflexivity|discriminate|vm_compute; reflexivity].
  - intros fromisoformat isoformat upload sync_file fs now_load now_pass W HW.
    unfold main. rewrite HW. split; reflexivity.
Qed.

Lemma C5_next_watermark_witness :
  written (py_main watermark_0601 noon_0602
             (Some [workout_0531; workout_0602]))
  = next_watermark_date
      (next_watermark (instant (datetime_utc 2024 6 1 0 0 0))
         (accepted_wall_starts Py.fromisoformat (datetime_utc 2024 6 1 0 0 0)
            [workout_0531; workout_0602]))
  /\ written (py_main watermark_0601 noon_0602 (Some []))
     = Some (now_utc noon_0602).
Proof.
  assert (HW : get_last_sync_date Py.fromisoformat watermark_0601 noon_0602
               = Ok (datetime_utc 2024 6 1 0 0 0))
    by (vm_compute; reflexivity).
  assert (Hne : [workout_0531; workout_0602] <> []) by discriminate.
  split.
  - exact (proj1 (proj1 C5_next_watermark Py.fromisoformat Py.isoformat
                    Py.upload_ok watermark_0601 empty_disk noon_0602 noon_0602
                    [workout_0531; workout_0602] _ Hne HW)).
  - exact (proj1 (proj2 (proj2 C5_next_watermark) Py.fromisoformat
                    Py.isoformat Py.upload_ok watermark_0601 empty_disk
                    noon_0602 noon_0602 _ HW)).
Defined.

(** ** Failed encodings *)

(** C3, as the specification states it, fails on a batch of a record
    starting 2024-06-02T08:00:00Z and a record starting
    2024-06-03T08:00:00Z whose end_time is missing: the generator raises
    [KeyError] for the second record, yet the pass stores
    2024-06-03T08:00:01Z, while without that record it stores
    2024-06-02T08:00:01Z. *)
Lemma C3_failed_encoding_advances_watermark :
  In (EncodeCall 1 (Raise (KeyError "end_time")))
     (pass_log (py_main watermark_0601 midnight_0604
                  (Some [workout_0602; workout_0603_broken])))
  /\ written (py_main watermark_0601 midnight_0604
                (Some [workout_0602; workout_0603_broken]))
     = Some (datetime_utc 2024 6 3 8 0 1)
  /\ written (py_main watermark_0601 midnight_0604 (Some [workout_0602]))
     = Some (datetime_utc 2024 6 2 8 0 1)
  /\ written (py_main watermark_0601 midnight_0604
                (Some [workout_0602; workout_0603_broken]))
     <> written (py_main watermark_0601 midnight_0604 (Some [workout_0602])).
Proof.
  split; [vm_compute; auto 10|]. split; [vm_compute; reflexivity|].
  split; [vm_compute; reflexivity|]. vm_compute. discriminate.
Qed.

(** C3 (amended): for every pass, the watermark written at pass end does
    not depend on the outcome of encoding or upload: it is the same for
    any uploader and any disk.  A session that passes the filter raises
    the running maximum before its encoding is attempted, so it counts
    also when its encoding fails: whenever the pass completes, the
    watermark written is at least one second after the wall-clock reading
    of its start_time taken as UTC, and the filter skips the session
    against that watermark, so it is not retried. *)
Theorem C3_watermark_ignores_encoding
    (fromisoformat : string -> option datetime)
    (isoformat : datetime -> string) :
  (forall upload upload' fs fs' sync_file now_load now_pass fetched,
     written (main fromisoformat isoformat upload
                sync_file fs now_load now_pass fetched)
     = written (main fromisoformat isoformat upload'
                  sync_file fs' now_load now_pass fetched))
  /\ (forall upload fs sync_file now_load now_pass ws w d W W',
        get_last_sync_date fromisoformat sync_file now_load = Ok W ->
        In w ws ->
        wall_clock_start fromisoformat w = Some d ->
        accept (instant d) (instant W) = true ->
        written (main fromisoformat isoformat upload
                   sync_file fs now_load now_pass (Some ws)) = Some W' ->
        (forall fs0,
           is_ok (fst (generate_strength_activity_fit fromisoformat w
                         "temp_fit_files" fs0)) = false)
        /\ instant d + US_PER_SECOND <= instant W'
        /\ forall latest,
             filter_workout fromisoformat W' latest w = AlreadySynced).
Proof.
  split.
  - intros. unfold main.
    destruct (get_last_sync_date fromisoformat sync_file now_load) as [W|e];
      [|reflexivity].
    destruct fetched as [[|w rest]|]; try reflexivity.
    rewrite !process_workouts_latest. cbn [latest_workout_time].
    destruct (dt_add _ _); reflexivity.
  - intros upload fs sync_file now_load now_pass ws w d W W' HW Hin Hd Hacc Hw.
    split; [intros fs0; apply generate_never_ok|].
    apply (written_covers_accepted fromisoformat isoformat upload sync_file fs
             now_load now_pass ws w d W W'); assumption.
Qed.

Lemma C3_watermark_ignores_encoding_witness :
  instant (datetime_utc 2024 6 3 8 0 0) + US_PER_SECOND
  <= instant (datetime_utc 2024 6 3 8 0 1)
  /\ forall latest,
       filter_workout Py.fromisoformat (datetime_utc 2024 6 3 8 0 1) latest
         workout_0603_broken
       = AlreadySynced.
Proof.
  assert (HW : get_last_sync_date Py.fromisoformat watermark_0601 midnight_0604
               = Ok (datetime_utc 2024 6 1 0 0 0))
    by (vm_compute; reflexivity).
  assert (Hin : In workout_0603_broken [workout_0602; workout_0603_broken])
    by (simpl; auto).
  assert (Hd : wall_clock_start Py.fromisoformat workout_0603_broken
               = Some (datetime_utc 2024 6 3 8 0 0))
    by (vm_compute; reflexivity).
  assert (Hacc : accept (instant (datetime_utc 2024 6 3 8 0 0))
                   (instant (datetime_utc 2024 6 1 0 0 0)) = true)
    by (vm_compute; reflexivity).
  assert (Hw : written (main Py.fromisoformat Py.isoformat Py.upload_ok
                          watermark_0601 empty_disk midnight_0604 midnight_0604
                          (Some [workout_0602; workout_0603_broken]))
               = Some (datetime_utc 2024 6 3 8 0 1))
    by (vm_compute; reflexivity).
  exact (proj2 (proj2 (C3_watermark_ignores_encoding Py.fromisoformat
                         Py.isoformat) Py.upload_ok empty_disk watermark_0601
                  midnight_0604 midnight_0604
                  [workout_0602; workout_0603_broken] workout_0603_broken
                  _ _ _ HW Hin Hd Hacc Hw)).
Defined.

(** ** The filter *)

(** C6, as the specification states it, fails on starts that carry an
    offset.  A session that starts at 10:00+02:00, that is at 08:00 UTC,
    is let through against the watermark 09:00 UTC, although its start is
    not after the watermark; a session that starts at 08:00-05:00, that
    is at 13:00 UTC, is skipped against the watermark 10:00 UTC, although
    its start is after the watermark. *)
Lemma C6_offset_start_misjudged :
  (start_instant Py.fromisoformat workout_local
   = Some (instant (datetime_utc 2024 6 2 8 0 0))
   /\ accept (instant (datetime_utc 2024 6 2 8 0 0))
        (instant (datetime_utc 2024 6 2 9 0 0)) = false
   /\ filter_workout Py.fromisoformat (datetime_utc 2024 6 2 9 0 0)
        (datetime_utc 2024 6 2 9 0 0) workout_local
      = Proceed (datetime_utc 2024 6 2 10 0 0))
  /\ (start_instant Py.fromisoformat workout_west
      = Some (instant (datetime_utc 2024 6 2 13 0 0))
      /\ accept (instant (datetime_utc 2024 6 2 13 0 0))
           (instant (datetime_utc 2024 6 2 10 0 0)) = true
      /\ filter_workout Py.fromisoformat (datetime_utc 2024 6 2 10 0 0)
           (datetime_utc 2024 6 2 10 0 0) workout_west
         = AlreadySynced).
Proof. vm_compute. repeat split; reflexivity. Qed.

(** C6 (amended): for every session S whose start_time parses and every
    watermark W, the filter lets S through iff the wall-clock reading of
    its start_time, taken as UTC whatever offset it carries, is strictly
    after W, and skips it as already synced iff that reading is at or
    before W; the reading is the start instant of S when start_time
    carries no offset or the offset zero.  For every session let through
    and every pass over a batch containing it that completes, filtering
    the session again against the watermark the pass wrote skips it. *)
Theorem C6_filter_reads_wall_clock (fromisoformat : string -> option datetime) :
  (forall W latest w d,
     wall_clock_start fromisoformat w = Some d ->
     (accept (instant d) (instant W) = true <-> instant W < instant d)
     /\ ((exists l, filter_workout fromisoformat W latest w = Proceed l)
         <-> instant W < instant d)
     /\ (filter_workout fromisoformat W latest w = AlreadySynced
         <-> instant d <= instant W))
  /\ (forall w s ds,
        start_time w = Some s -> s <> EmptyString ->
        fromisoformat s = Some ds ->
        exists d,
          wall_clock_start fromisoformat w = Some d
          /\ instant d = wall ds
          /\ (default 0 (tzinfo ds) = 0 ->
              start_instant fromisoformat w = Some (instant d)))
  /\ (forall isoformat upload fs sync_file now_load now_pass ws w d W W',
        get_last_sync_date fromisoformat sync_file now_load = Ok W ->
        In w ws ->
        wall_clock_start fromisoformat w = Some d ->
        instant W < instant d ->
        written (main fromisoformat isoformat upload
                   sync_file fs now_load now_pass (Some ws)) = Some W' ->
        accept (instant d) (instant W') = false
        /\ forall latest,
             filter_workout fromisoformat W' latest w = AlreadySynced).
Proof.
  split; [|split].
  - intros W latest w d Hd.
    rewrite (filter_workout_parsed fromisoformat W latest w d Hd).
    unfold accept. destruct (Z.ltb_spec (instant W) (instant d)).
    + split; [tauto|]. split.
      * split; [auto|eauto].
      * split; [discriminate|lia].
    + split; [split; [discriminate|lia]|]. split.
      * split; [intros [l Hl]; discriminate|lia].
      * split; [lia|reflexivity].
  - intros w s ds Hs Hne Hds. exists (replace_tzinfo_utc ds).
    unfold wall_clock_start, start_instant. rewrite Hs. cbn [mbind option_bind].
    rewrite (truthy_nonempty s Hne), Hds. cbn [fmap option_fmap option_map].
    split; [reflexivity|]. split; [apply instant_replace_utc|].
    intros Hz. rewrite instant_replace_utc. unfold instant. rewrite Hz.
    f_equal. lia.
  - intros isoformat upload fs sync_file now_load now_pass ws w d W W'
           HW Hin Hd Hlt Hw.
    destruct (written_covers_accepted fromisoformat isoformat upload
                sync_file fs now_load now_pass ws w d W W' HW Hin Hd)
      as (Hge & Hskip); [|exact Hw|].
    { unfold accept. apply Z.ltb_lt. exact Hlt. }
    split; [|exact Hskip].
    unfold accept, US_PER_SECOND in *. apply Z.ltb_ge. lia.
Qed.

Lemma C6_filter_reads_wall_clock_witness :
  accept (instant (datetime_utc 2024 6 2 8 0 0))
    (instant (datetime_utc 2024 6 2 8 0 1)) = false
  /\ forall latest,
       filter_workout Py.fromisoformat (datetime_utc 2024 6 2 8 0 1) latest
         workout_0602
       = AlreadySynced.
Proof.
  assert (HW : get_last_sync_date Py.fromisoformat watermark_0601 noon_0602
               = Ok (datetime_utc 2024 6 1 0 0 0))
    by (vm_compute; reflexivity).
  assert (Hin : In workout_0602 [workout_0531; workout_0602])
    by (simpl; auto).
  assert (Hd : wall_clock_start Py.fromisoformat workout_0602
               = Some (datetime_utc 2024 6 2 8 0 0))
    by (vm_compute; reflexivity).
  assert (Hlt : instant (datetime_utc 2024 6 1 0 0 0)
                < instant (datetime_utc 2024 6 2 8 0 0))
    by (vm_compute; reflexivity).
  assert (Hw : written (main Py.fromisoformat Py.isoformat Py.upload_ok
                          watermark_0601 empty_disk noon_0602 noon_0602
                          (Some [workout_0531; workout_0602]))
               = Some (datetime_utc 2024 6 2 8 0 1))
    by (vm_compute; reflexivity).
  exact (proj2 (proj2 (C6_filter_reads_wall_clock Py.fromisoformat))
           Py.isoformat Py.upload_ok empty_disk watermark_0601
           noon_0602 noon_0602 [workout_0531; workout_0602] workout_0602
           _ _ _ HW Hin Hd Hlt Hw).
Defined.

(** ** Monotonicity of the stored watermark *)

(** C8, as the specification states it, fails over two passes.  At 08:35
    UTC a workout stamped 10:00 at offset +02:00 is fetched; the pass reads
    the wall-clock time as UTC and stores 10:00:01 UTC.  At 08:40 UTC
    nothing is fetched, the pass reads 10:00:01 and stores 08:40:00. *)
Lemma C8_watermark_moves_back :
  sync_file_after (py_main watermark_0601 clock_0835 (Some [workout_local]))
  = Some (Text "2024-06-02T10:00:01+00:00")
  /\ get_last_sync_date Py.fromisoformat
       (sync_file_after (py_main watermark_0601 clock_0835 (Some [workout_local])))
       clock_0840
     = Ok (datetime_utc 2024 6 2 10 0 1)
  /\ written (py_main
                (sync_file_after
                   (py_main watermark_0601 clock_0835 (Some [workout_local])))
                clock_0840 (Some []))
     = Some (datetime_utc 2024 6 2 8 40 0)
  /\ instant (datetime_utc 2024 6 2 8 40 0)
     < instant (datetime_utc 2024 6 2 10 0 1).
Proof. vm_compute. repeat split; reflexivity. Qed.

(** C8 (amended): for every completed pass whose fetched batch is not
    empty, the value written at the end of the pass is strictly greater
    than the value read at its start, by a second at least; such a pass
    completes exactly when the date to write is one Python can represent.
    A pass whose batch is empty writes its current time, which is greater
    than or equal to the value read exactly when the value read is not
    ahead of the clock.  A pass whose fetch fails, or that ends in an
    exception, writes nothing and leaves the stored value as it was. *)
Theorem C8_watermark_per_pass (fromisoformat : string -> option datetime)
    (isoformat : datetime -> string)
    (upload : nat -> string -> option string -> upload_outcome)
    (sync_file : option file_content) (fs : filesystem)
    (now_load now_pass : Z) :
  (forall ws W d,
     ws <> [] ->
     get_last_sync_date fromisoformat sync_file now_load = Ok W ->
     written (main fromisoformat isoformat upload
                sync_file fs now_load now_pass (Some ws)) = Some d ->
     instant W + US_PER_SECOND <= instant d)
  /\ (forall ws W,
        ws <> [] ->
        get_last_sync_date fromisoformat sync_file now_load = Ok W ->
        (0 <= next_watermark (instant W)
                (accepted_wall_starts fromisoformat W ws) <= MAX_WALL ->
         exists d,
           written (main fromisoformat isoformat upload
                      sync_file fs now_load now_pass (Some ws)) = Some d)
        /\ (next_watermark (instant W)
              (accepted_wall_starts fromisoformat W ws) < 0
            \/ MAX_WALL < next_watermark (instant W)
                            (accepted_wall_starts fromisoformat W ws) ->
            written (main fromisoformat isoformat upload
                       sync_file fs now_load now_pass (Some ws)) = None
            /\ sync_file_after (main fromisoformat isoformat upload
                                  sync_file fs now_load now_pass (Some ws))
               = sync_file
            /\ raised (main fromisoformat isoformat upload
                         sync_file fs now_load now_pass (Some ws))
               = Some OverflowError))
  /\ (forall W,
        get_last_sync_date fromisoformat sync_file now_load = Ok W ->
        exists d,
          written (main fromisoformat isoformat upload
                     sync_file fs now_load now_pass (Some [])) = Some d
          /\ instant d = now_pass
          /\ (instant W <= instant d <-> instant W <= now_pass))
  /\ (written (main fromisoformat isoformat upload
                 sync_file fs now_load now_pass None) = None
      /\ sync_file_after (main fromisoformat isoformat upload
                            sync_file fs now_load now_pass None) = sync_file)
  /\ (forall e fetched,
        get_last_sync_date fromisoformat sync_file now_load = Raise e ->
        written (main fromisoformat isoformat upload
                   sync_file fs now_load now_pass fetched) = None
        /\ sync_file_after (main fromisoformat isoformat upload
                              sync_file fs now_load now_pass fetched)
           = sync_file).
Proof.
  split; [|split; [|split; [|split]]].
  - intros ws W d Hne HW Hw.
    rewrite (main_written_closed fromisoformat isoformat upload sync_file fs
               now_load now_pass ws W Hne HW) in Hw.
    apply next_watermark_date_some in Hw as (Hi & _ & _).
    rewrite Hi. unfold next_watermark.
    pose proof (fold_max_ge_base (accepted_wall_starts fromisoformat W ws)
                  (instant W)).
    lia.
  - intros ws W Hne HW. split.
    + intros Hr.
      rewrite (main_written_closed fromisoformat isoformat upload sync_file fs
                 now_load now_pass ws W Hne HW).
      rewrite (next_watermark_date_in_range _ Hr). eauto.
    + intros Hr.
      destruct (main_written fromisoformat isoformat upload sync_file fs
                  now_load now_pass ws W Hne HW) as (Hw & Hf & Hx).
      pose proof (main_written_closed fromisoformat isoformat upload sync_file
                    fs now_load now_pass ws W Hne HW) as Hc.
      rewrite (next_watermark_date_out_of_range _ Hr) in Hc.
      rewrite Hw in Hc. rewrite Hf, Hx, Hw, Hc. auto.
  - intros W HW. exists (now_utc now_pass). unfold main. rewrite HW.
    split; [reflexivity|].
    assert (E : instant (now_utc now_pass) = now_pass)
      by (unfold instant, now_utc; simpl; lia).
    split; [exact E|]. rewrite E. tauto.
  - unfold main.
    destruct (get_last_sync_date fromisoformat sync_file now_load);
      split; reflexivity.
  - intros e fetched He. unfold main. rewrite He. split; reflexivity.
Qed.

Lemma C8_watermark_per_pass_witness :
  instant (datetime_utc 2024 6 1 0 0 0) + US_PER_SECOND
  <= instant (datetime_utc 2024 6 2 8 0 1)
  /\ (written (py_main watermark_0601 noon_0602 (Some [workout_last_second]))
      = None
      /\ sync_file_after (py_main watermark_0601 noon_0602
                            (Some [workout_last_second]))
         = watermark_0601
      /\ raised (py_main watermark_0601 noon_0602
                   (Some [workout_last_second]))
         = Some OverflowError).
Proof.
  assert (HW : get_last_sync_date Py.fromisoformat watermark_0601 noon_0602
               = Ok (datetime_utc 2024 6 1 0 0 0))
    by (vm_compute; reflexivity).
  assert (Hne : [workout_0531; workout_0602] <> []) by discriminate.
  assert (Hw : written (main Py.fromisoformat Py.isoformat Py.upload_ok
                          watermark_0601 empty_disk noon_0602 noon_0602
                          (Some [workout_0531; workout_0602]))
               = Some (datetime_utc 2024 6 2 8 0 1))
    by (vm_compute; reflexivity).
  split.
  - exact (proj1 (C8_watermark_per_pass Py.fromisoformat Py.isoformat
                    Py.upload_ok watermark_0601 empty_disk noon_0602 noon_0602)
             [workout_0531; workout_0602] _ _ Hne HW Hw).
  - assert (Hl : [workout_last_second] <> []) by discriminate.
    assert (Hr : next_watermark (instant (datetime_utc 2024 6 1 0 0 0))
                   (accepted_wall_starts Py.fromisoformat
                      (datetime_utc 2024 6 1 0 0 0) [workout_last_second]) < 0
                 \/ MAX_WALL
                    < next_watermark (instant (datetime_utc 2024 6 1 0 0 0))
                        (accepted_wall_starts Py.fromisoformat
                           (datetime_utc 2024 6 1 0 0 0) [workout_last_second]))
      by (right; vm_compute; reflexivity).
    exact (proj2 (proj1 (proj2 (C8_watermark_per_pass Py.fromisoformat
                                  Py.isoformat Py.upload_ok watermark_0601
                                  empty_disk noon_0602 noon_0602))
                    [workout_last_second] _ Hl HW) Hr).
Defined.

(** ** The log of a pass *)

Lemma path_exists_mono (fs fs' : filesystem) (p : string) :
  dirs fs ⊆ dirs fs' -> files fs' = files fs ->
  path_exists fs p = true -> path_exists fs' p = true.
Proof.
  unfold path_exists, dir_exists, file_exists. intros Hd ->.
  destruct (truthy p); [|discriminate]. cbn [andb].
  destruct (bool_decide (is_Some (files fs !! p))); [intros _; apply orb_true_r|].
  rewrite orb_false_r. intros H. apply bool_decide_eq_true in H.
  rewrite bool_decide_eq_true_2; [reflexivity|]. apply Hd, H.
Qed.

Section PassLog.

Variable fromisoformat : string -> option datetime.
Variable isoformat : datetime -> string.
Variable upload : nat -> string -> option string -> upload_outcome.

(** The generator raises, so the upload of line 84 is not reached: lines
    79-95 come down to the call, the log entry and the [finally] clause. *)
Lemma encode_and_upload_eq (i : nat) (st : loop_state) (w : hevy_workout) :
  encode_and_upload fromisoformat upload i st w
  = cleanup
      {| latest_workout_time := latest_workout_time st;
         successful_uploads := successful_uploads st;
         fit_file_path := fit_file_path st;
         disk := snd (generate_strength_activity_fit fromisoformat w
                        "temp_fit_files" (disk st));
         log := log st
                ++ [EncodeCall i (strength_activity_header fromisoformat w)] |}.
Proof.
  unfold encode_and_upload.
  pose proof (generate_fst fromisoformat w "temp_fit_files" (disk st)) as Hf.
  cbn [truthy] in Hf.
  destruct (generate_strength_activity_fit fromisoformat w "temp_fit_files"
              (disk st)) as [r fs1].
  cbn [fst snd] in *. subst r.
  destruct (header_raises fromisoformat w) as [e He]. rewrite He. reflexivity.
Qed.

Lemma process_workout_step (W : datetime) (i : nat) (st : loop_state)
    (w : hevy_workout) :
  fit_file_path st = None ->
  fit_file_path (process_workout fromisoformat upload W i st w) = None
  /\ successful_uploads (process_workout fromisoformat upload W i st w)
     = successful_uploads st
  /\ log (process_workout fromisoformat upload W i st w)
     = log st ++ step_log fromisoformat W i w
  /\ files (disk (process_workout fromisoformat upload W i st w))
     = files (disk st)
  /\ dirs (disk st)
     ⊆ dirs (disk (process_workout fromisoformat upload W i st w))
  /\ (forall d,
        d ∈ dirs (disk (process_workout fromisoformat upload W i st w)) ->
        d ∈ dirs (disk st)
        \/ (d = "temp_fit_files"%string
            /\ existsb is_encode_call (step_log fromisoformat W i w) = true))
  /\ (existsb is_encode_call (step_log fromisoformat W i w) = true ->
      path_exists (disk (process_workout fromisoformat upload W i st w))
        "temp_fit_files" = true).
Proof.
  intros Hp. unfold process_workout, step_log.
  pose proof (filter_workout_kind fromisoformat W (latest_workout_time st) W w)
    as Hk.
  destruct (filter_workout fromisoformat W (latest_workout_time st) w);
    destruct (filter_workout fromisoformat W W w); try contradiction.
  - cbn. repeat split; auto. discriminate.
  - cbn. repeat split; auto. discriminate.
  - rewrite encode_and_upload_eq. unfold cleanup.
    cbn [fit_file_path successful_uploads log disk latest_workout_time].
    rewrite Hp.
    cbn [fit_file_path successful_uploads log disk latest_workout_time].
    split; [reflexivity|]. split; [reflexivity|]. split; [reflexivity|].
    split; [apply generate_files|]. split; [apply generate_dirs|]. split.
    + intros d Hd.
      destruct (generate_new_dirs fromisoformat w "temp_fit_files" (disk st)
                  d Hd) as [H|(H & _)]; auto.
    + intros _. apply generate_dir_exists. discriminate.
Qed.

Lemma process_workouts_steps (W : datetime) (ws : list hevy_workout) :
  forall i st,
    fit_file_path st = None ->
    fit_file_path (process_workouts fromisoformat upload W i st ws) = None
    /\ successful_uploads (process_workouts fromisoformat upload W i st ws)
       = successful_uploads st
    /\ log (process_workouts fromisoformat upload W i st ws)
       = log st ++ expected_log fromisoformat W i ws
    /\ files (disk (process_workouts fromisoformat upload W i st ws))
       = files (disk st)
    /\ dirs (disk st)
       ⊆ dirs (disk (process_workouts fromisoformat upload W i st ws))
    /\ (forall d,
          d ∈ dirs (disk (process_workouts fromisoformat upload W i st ws)) ->
          d ∈ dirs (disk st)
          \/ (d = "temp_fit_files"%string
              /\ existsb is_encode_call (expected_log fromisoformat W i ws)
                 = true))
    /\ (existsb is_encode_call (expected_log fromisoformat W i ws) = true ->
        path_exists (disk (process_workouts fromisoformat upload W i st ws))
          "temp_fit_files" = true).
Proof.
  induction ws as [|w rest IH]; intros i st Hp.
  - cbn [process_workouts expected_log existsb]. rewrite app_nil_r.
    repeat split; auto. discriminate.
  - cbn [process_workouts expected_log].
    destruct (process_workout_step W i st w Hp)
      as (H1 & H2 & H3 & H4 & H5 & H6 & H7).
    destruct (IH (S i) _ H1) as (I1 & I2 & I3 & I4 & I5 & I6 & I7).
    split; [exact I1|]. split; [congruence|].
    split; [rewrite I3, H3, app_assoc; reflexivity|].
    split; [congruence|]. split; [etransitivity; eassumption|].
    rewrite existsb_app. split.
    + intros d Hd. destruct (I6 d Hd) as [H|[-> H]].
      * destruct (H6 d H) as [H'|[-> H']]; [auto|].
        right. split; [reflexivity|]. rewrite H'. reflexivity.
      * right. split; [reflexivity|]. rewrite H. apply orb_true_r.
    + intros [H|H]%orb_true_iff; [|exact (I7 H)].
      apply (path_exists_mono _ _ _ I5); [congruence|exact (H7 H)].
Qed.

(** The pass in closed form. *)
Lemma main_closed_form (sync_file : option file_content) (fs : filesystem)
    (now_load now_pass : Z) (ws : list hevy_workout) (W : datetime) :
  get_last_sync_date fromisoformat sync_file now_load = Ok W ->
  pass_log (main fromisoformat isoformat upload
              sync_file fs now_load now_pass (Some ws))
  = expected_log fromisoformat W 0 ws
  /\ uploaded (main fromisoformat isoformat upload
                 sync_file fs now_load now_pass (Some ws)) = 0%nat
  /\ files (disk_after (main fromisoformat isoformat upload
                          sync_file fs now_load now_pass (Some ws)))
     = files fs
  /\ dirs fs
     ⊆ dirs (disk_after (main fromisoformat isoformat upload
                           sync_file fs now_load now_pass (Some ws)))
  /\ (forall d,
        d ∈ dirs (disk_after (main fromisoformat isoformat upload
                                sync_file fs now_load now_pass (Some ws))) ->
        d ∈ dirs fs
        \/ (d = "temp_fit_files"%string
            /\ existsb is_encode_call (expected_log fromisoformat W 0 ws)
               = true))
  /\ (existsb is_encode_call (expected_log fromisoformat W 0 ws) = true ->
      path_exists (disk_after (main fromisoformat isoformat upload
                                 sync_file fs now_load now_pass (Some ws)))
        "temp_fit_files" = true).
Proof.
  intros HW. unfold main. rewrite HW. destruct ws as [|w rest].
  - cbn. repeat split; auto. discriminate.
  - set (st0 := {| latest_workout_time := W; successful_uploads := 0;
                   fit_file_path := None; disk := fs; log := [] |}).
    destruct (process_workouts_steps W (w :: rest) 0 st0 eq_refl)
      as (_ & H2 & H3 & H4 & H5 & H6 & H7).
    destruct (dt_add _ _);
      cbn [pass_log uploaded disk_after]; repeat split; auto.
Qed.

(** A pass that does not get as far as the loop. *)
Lemma main_cases (sync_file : option file_content) (fs : filesystem)
    (now_load now_pass : Z) (fetched : option (list hevy_workout)) :
  (pass_log (main fromisoformat isoformat upload
               sync_file fs now_load now_pass fetched) = []
   /\ uploaded (main fromisoformat isoformat upload
                  sync_file fs now_load now_pass fetched) = 0%nat
   /\ disk_after (main fromisoformat isoformat upload
                    sync_file fs now_load now_pass fetched) = fs)
  \/ exists W ws,
       get_last_sync_date fromisoformat sync_file now_load = Ok W
       /\ fetched = Some ws.
Proof.
  unfold main.
  destruct (get_last_sync_date fromisoformat sync_file now_load) as [W|e];
    [|left; auto].
  destruct fetched as [ws|]; [right; eauto|left; auto].
Qed.

End PassLog.

Section PassLogFacts.

Variable fromisoformat : string -> option datetime.
Variable W : datetime.

Lemma step_log_decision (i : nat) (w : hevy_workout) :
  omap decision_index (step_log fromisoformat W i w) = [i].
Proof.
  unfold step_log. destruct (filter_workout fromisoformat W W w); reflexivity.
Qed.

Lemma expected_log_decisions (ws : list hevy_workout) :
  forall i,
    omap decision_index (expected_log fromisoformat W i ws) = seq i (length ws).
Proof.
  induction ws as [|w rest IH]; intros i; [reflexivity|].
  cbn [expected_log length seq]. rewrite omap_app, step_log_decision, IH.
  reflexivity.
Qed.

Lemma In_expected_log (e : log_entry) (ws : list hevy_workout) :
  forall i,
    In e (expected_log fromisoformat W i ws)
    <-> exists j w, ws !! j = Some w
                    /\ In e (step_log fromisoformat W (i + j) w).
Proof.
  induction ws as [|w rest IH]; intros i.
  - simpl. split; [tauto|]. intros (j & w & Hj & _). discriminate.
  - cbn [expected_log]. rewrite in_app_iff, IH. split.
    + intros [H|(j & w' & Hj & H)].
      * exists 0%nat, w. rewrite Nat.add_0_r. auto.
      * exists (S j), w'. rewrite Nat.add_succ_r. auto.
    + intros ([|j] & w' & Hj & H).
      * left. simpl in Hj. injection Hj as <-. rewrite Nat.add_0_r in H. exact H.
      * right. exists j, w'. simpl in Hj. rewrite Nat.add_succ_r in H. auto.
Qed.

(** Every entry of a step is a decision: a skip, or a call of the
    generator that raised. *)
Lemma step_log_entries (i : nat) (w : hevy_workout) (e : log_entry) :
  In e (step_log fromisoformat W i w) ->
  after_encoding e = false
  /\ upload_succeeded e = false
  /\ (forall j res, e = EncodeCall j res -> is_ok res = false).
Proof.
  unfold step_log. destruct (filter_workout fromisoformat W W w);
    intros [<-|[]]; repeat split; try reflexivity; try discriminate.
  intros j res H. injection H as _ <-. apply header_never_ok.
Qed.

Lemma expected_log_entries (ws : list hevy_workout) (i : nat) (e : log_entry) :
  In e (expected_log fromisoformat W i ws) ->
  after_encoding e = false
  /\ upload_succeeded e = false
  /\ (forall j res, e = EncodeCall j res -> is_ok res = false).
Proof.
  intros (j & w & _ & H)%In_expected_log. exact (step_log_entries _ w e H).
Qed.


Lemma step_log_index (n i : nat) (w : hevy_workout) (e : log_entry) :
  In e (step_log fromisoformat W n w) ->
  (decision_index e = Some i \/ (exists p t o, e = UploadCall i p t o)) ->
  n = i.
Proof.
  unfold step_log. destruct (filter_workout fromisoformat W W w);
    simpl; intros [<-|[]] [H|(p & t & o & H)];
    try discriminate; injection H; auto.
Qed.

End PassLogFacts.

(** ** Records without a usable start time *)

Lemma upload_attempted_app (i : nat) (l1 l2 : list log_entry) :
  upload_attempted i (l1 ++ l2) = upload_attempted i l1 || upload_attempted i l2.
Proof. unfold upload_attempted. apply existsb_app. Qed.

Lemma encode_attempted_app (i : nat) (l1 l2 : list log_entry) :
  encode_attempted i (l1 ++ l2) = encode_attempted i l1 || encode_attempted i l2.
Proof. unfold encode_attempted. apply existsb_app. Qed.

(** C10, as the specification states it, fails twice.  On a batch of one
    record without start_time the generator is called and raises
    [KeyError] on the missing key, so the uploader is never called for it.
    On a batch of one record whose start_time is the empty string, a
    start_time that is present and does not parse, the record is not
    skipped: the generator is called for it. *)
Lemma C10_no_upload_without_start :
  (start_time workout_no_start = None
   /\ pass_log (py_main watermark_0601 noon_0602 (Some [workout_no_start]))
      = [EncodeCall 0 (Raise (KeyError "start_time"))]
   /\ encode_attempted 0
        (pass_log (py_main watermark_0601 noon_0602 (Some [workout_no_start])))
      = true
   /\ upload_attempted 0
        (pass_log (py_main watermark_0601 noon_0602 (Some [workout_no_start])))
      = false)
  /\ (start_time workout_empty_start = Some EmptyString
      /\ Py.fromisoformat EmptyString = None
      /\ pass_log (py_main watermark_0601 noon_0602
                     (Some [workout_empty_start]))
         = [EncodeCall 0 (Raise ValueError)]
      /\ encode_attempted 0
           (pass_log (py_main watermark_0601 noon_0602
                        (Some [workout_empty_start])))
         = true).
Proof. vm_compute. repeat split; reflexivity. Qed.

(** C10 (amended): for every fetched session record whose start_time field
    is absent or empty, the orchestrator bypasses the watermark filter
    entirely: whatever the current watermark, the session is handed to the
    generator, which raises ([KeyError] on a missing start_time), so that
    no upload is attempted for it; its start never affects the next
    watermark.  A session whose start_time is present, not empty and
    unparsable is skipped without encode or upload. *)
Theorem C10_missing_start (fromisoformat : string -> option datetime)
    (isoformat : datetime -> string)
    (upload : nat -> string -> option string -> upload_outcome) :
  (forall W i st w,
     start_time w = None \/ start_time w = Some EmptyString ->
     latest_workout_time (process_workout fromisoformat upload W i st w)
     = latest_workout_time st
     /\ successful_uploads (process_workout fromisoformat upload W i st w)
        = successful_uploads st
     /\ (exists e tail,
           log (process_workout fromisoformat upload W i st w)
           = log st ++ EncodeCall i (Raise e) :: tail
           /\ (tail = [] \/ exists p, tail = [Removed p])
           /\ (start_time w = None -> e = KeyError "start_time"))
     /\ encode_attempted i
          (log (process_workout fromisoformat upload W i st w))
        = true
     /\ upload_attempted i
          (log (process_workout fromisoformat upload W i st w))
        = upload_attempted i (log st))
  /\ (forall sync_file fs now_load now_pass ws1 ws2 w,
        start_time w = None \/ start_time w = Some EmptyString ->
        ws1 ++ ws2 <> [] ->
        written (main fromisoformat isoformat upload
                   sync_file fs now_load now_pass (Some (ws1 ++ w :: ws2)))
        = written (main fromisoformat isoformat upload
                     sync_file fs now_load now_pass (Some (ws1 ++ ws2))))
  /\ (forall W i st w s,
        start_time w = Some s -> s <> EmptyString -> fromisoformat s = None ->
        process_workout fromisoformat upload W i st w
        = add_log st (SkipUnparsable i)).
Proof.
  split; [|split].
  - intros W i st w Hs.
    assert (Hf : filter_workout fromisoformat W (latest_workout_time st) w
                 = Proceed (latest_workout_time st)).
    { unfold filter_workout. destruct Hs as [-> | ->]; reflexivity. }
    assert (He : exists e,
               strength_activity_header fromisoformat w = Raise e
               /\ (start_time w = None -> e = KeyError "start_time")).
    { destruct (start_time w) as [s|] eqn:Es.
      - destruct (header_raises fromisoformat w) as [e He]. exists e.
        split; [exact He|discriminate].
      - exists (KeyError "start_time"). split; [|reflexivity].
        unfold strength_activity_header. rewrite Es. reflexivity. }
    destruct He as (e & He & Hkey).
    assert (Hlog : exists e tail,
      log (process_workout fromisoformat upload W i st w)
      = log st ++ EncodeCall i (Raise e) :: tail
      /\ (tail = [] \/ exists p, tail = [Removed p])
      /\ (start_time w = None -> e = KeyError "start_time")).
    { exists e. unfold process_workout. rewrite Hf, encode_and_upload_eq, He.
      unfold cleanup. cbn [fit_file_path disk log].
      destruct (fit_file_path st) as [p|]; [|exists []; auto].
      destruct (file_exists _ p); cbn [log].
      - exists [Removed p]. rewrite <- app_assoc. eauto.
      - exists []. auto. }
    split; [|split; [|split; [exact Hlog|]]].
    + rewrite process_workout_latest, Hf. reflexivity.
    + unfold process_workout. rewrite Hf, encode_and_upload_eq.
      unfold cleanup. cbn [fit_file_path disk successful_uploads].
      destruct (fit_file_path st) as [p|]; [|reflexivity].
      destruct (file_exists _ p); reflexivity.
    + destruct Hlog as (e' & tail & -> & Htail & _).
      rewrite encode_attempted_app, upload_attempted_app.
      cbn [encode_attempted upload_attempted existsb].
      rewrite Nat.eqb_refl. split; [apply orb_true_r|].
      destruct Htail as [-> | [p ->]]; simpl; apply orb_false_r.
  - intros sync_file fs now_load now_pass ws1 ws2 w Hs Hne.
    destruct (get_last_sync_date fromisoformat sync_file now_load) as [W|e]
      eqn:HW; [|unfold main; rewrite HW; reflexivity].
    destruct (main_written fromisoformat isoformat upload
                sync_file fs now_load now_pass (ws1 ++ w :: ws2) W)
      as [-> _]; [destruct ws1; discriminate|exact HW|].
    destruct (main_written fromisoformat isoformat upload
                sync_file fs now_load now_pass (ws1 ++ ws2) W Hne HW)
      as [-> _].
    rewrite !scan_latest_app. cbn [scan_latest].
    replace (filter_workout fromisoformat W
               (scan_latest fromisoformat W W ws1) w)
      with (Proceed (scan_latest fromisoformat W W ws1));
      [reflexivity|].
    unfold filter_workout. destruct Hs as [-> | ->]; reflexivity.
  - intros W i st w s Hs Hne Hf. unfold process_workout, filter_workout.
    rewrite Hs, (truthy_nonempty s Hne), Hf. reflexivity.
Qed.

Lemma C10_missing_start_witness :
  (written (py_main watermark_0601 noon_0602
              (Some ([workout_0602] ++ workout_no_start :: [])))
   = written (py_main watermark_0601 noon_0602 (Some ([workout_0602] ++ []))))
  /\ (written (py_main watermark_0601 noon_0602
                 (Some ([workout_0602] ++ workout_empty_start :: [])))
      = written (py_main watermark_0601 noon_0602
                   (Some ([workout_0602] ++ []))))
  /\ process_workout Py.fromisoformat Py.upload_ok
       (datetime_utc 2024 6 1 0 0 0) 4
       {| latest_workout_time := datetime_utc 2024 6 1 0 0 0;
          successful_uploads := 0; fit_file_path := None;
          disk := empty_disk; log := [] |}
       workout_bad_start
     = add_log
         {| latest_workout_time := datetime_utc 2024 6 1 0 0 0;
            successful_uploads := 0; fit_file_path := None;
            disk := empty_disk; log := [] |}
         (SkipUnparsable 4).
Proof.
  pose proof (C10_missing_start Py.fromisoformat Py.isoformat Py.upload_ok)
    as (_ & Hmark & Hskip).
  assert (Hne : [workout_0602] ++ [] <> []) by discriminate.
  assert (Hbad : Py.fromisoformat "yesterday" = None)
    by (vm_compute; reflexivity).
  assert (Hy : "yesterday"%string <> EmptyString) by discriminate.
  split; [|split].
  - exact (Hmark watermark_0601 empty_disk noon_0602 noon_0602
             [workout_0602] [] workout_no_start (or_introl eq_refl) Hne).
  - exact (Hmark watermark_0601 empty_disk noon_0602 noon_0602
             [workout_0602] [] workout_empty_start (or_intror eq_refl) Hne).
  - exact (Hskip (datetime_utc 2024 6 1 0 0 0) 4%nat _ workout_bad_start
             "yesterday"%string eq_refl Hy Hbad).
Defined.

(** * Further properties of the sync pass *)

(** X9: a pass handles every fetched workout exactly once and in the order
    fetched, whatever fails on the way: the entries that decide a workout
    (skipped as synced, skipped as unparsable, or handed to the generator)
    carry the positions 0, 1, ..., n-1 in this order.  The watermark file
    is absent or holds text. *)
Theorem pass_decides_each_workout_once
    (fromisoformat : string -> option datetime)
    (isoformat : datetime -> string)
    (upload : nat -> string -> option string -> upload_outcome)
    (sync_file : option string) (fs : filesystem) (now_load now_pass : Z)
    (ws : list hevy_workout) :
  omap decision_index
    (pass_log (main fromisoformat isoformat upload
                 (Text <$> sync_file) fs now_load now_pass (Some ws)))
  = seq 0 (length ws).
Proof.
  destruct (get_last_sync_date_text fromisoformat sync_file now_load)
    as [W HW].
  destruct (main_closed_form fromisoformat isoformat upload
              (Text <$> sync_file) fs now_load now_pass ws W HW) as [-> _].
  apply expected_log_decisions.
Qed.

(** X10: a pass uploads nothing.  Whatever the watermark file, the disk,
    the clock, the fetched batch and the uploader, the log of the pass
    holds no upload and no removed file, the count of uploads is zero,
    and every call of the generator it records ended in an exception. *)
Theorem pass_never_uploads
    (fromisoformat : string -> option datetime)
    (isoformat : datetime -> string)
    (upload : nat -> string -> option string -> upload_outcome)
    (sync_file : option file_content) (fs : filesystem)
    (now_load now_pass : Z) (fetched : option (list hevy_workout)) :
  uploaded (main fromisoformat isoformat upload
              sync_file fs now_load now_pass fetched) = 0%nat
  /\ forall e,
       In e (pass_log (main fromisoformat isoformat upload
                         sync_file fs now_load now_pass fetched)) ->
       after_encoding e = false
       /\ forall i res, e = EncodeCall i res -> is_ok res = false.
Proof.
  destruct (main_cases fromisoformat isoformat upload sync_file fs
              now_load now_pass fetched) as [(Hl & Hu & _)|(W & ws & HW & ->)].
  - rewrite Hl, Hu. split; [reflexivity|]. intros e [].
  - destruct (main_closed_form fromisoformat isoformat upload sync_file fs
                now_load now_pass ws W HW) as (-> & -> & _).
    split; [reflexivity|]. intros e He.
    destruct (expected_log_entries fromisoformat W ws 0 e He) as (H1 & _ & H3).
    auto.
Qed.

(** X11: a pass leaves the files of the disk alone (the watermark file
    is not among them: it is kept apart).  No file is written, changed
    or removed and no directory is removed; the only directory that can
    be new is temp_fit_files, and it is there after every pass that
    called the generator. *)
Theorem pass_leaves_files
    (fromisoformat : string -> option datetime)
    (isoformat : datetime -> string)
    (upload : nat -> string -> option string -> upload_outcome)
    (sync_file : option file_content) (fs : filesystem)
    (now_load now_pass : Z) (fetched : option (list hevy_workout)) :
  files (disk_after (main fromisoformat isoformat upload
                       sync_file fs now_load now_pass fetched))
  = files fs
  /\ dirs fs
     ⊆ dirs (disk_after (main fromisoformat isoformat upload
                           sync_file fs now_load now_pass fetched))
  /\ (forall d,
        d ∈ dirs (disk_after (main fromisoformat isoformat upload
                                sync_file fs now_load now_pass fetched)) ->
        d ∈ dirs fs
        \/ (d = "temp_fit_files"%string
            /\ existsb is_encode_call
                 (pass_log (main fromisoformat isoformat upload
                              sync_file fs now_load now_pass fetched))
               = true))
  /\ (existsb is_encode_call
        (pass_log (main fromisoformat isoformat upload
                     sync_file fs now_load now_pass fetched)) = true ->
      path_exists (disk_after (main fromisoformat isoformat upload
                                 sync_file fs now_load now_pass fetched))
        "temp_fit_files" = true).
Proof.
  destruct (main_cases fromisoformat isoformat upload sync_file fs
              now_load now_pass fetched) as [(Hl & _ & Hd)|(W & ws & HW & ->)].
  - rewrite Hl, Hd. repeat split; auto. discriminate.
  - destruct (main_closed_form fromisoformat isoformat upload sync_file fs
                now_load now_pass ws W HW) as (-> & _ & H3 & H4 & H5 & H6).
    auto.
Qed.


Lemma pass_leaves_files_witness :
  path_exists (disk_after (py_main watermark_0601 noon_0602
                             (Some [workout_0531; workout_0602])))
    "temp_fit_files" = true.
Proof.
  apply (proj2 (proj2 (proj2 (pass_leaves_files Py.fromisoformat Py.isoformat
                                 Py.upload_ok watermark_0601 empty_disk
                                 noon_0602 noon_0602
                                 (Some [workout_0531; workout_0602]))))).
  vm_compute. reflexivity.
Defined.

Lemma pass_never_uploads_witness :
  after_encoding (EncodeCall 1 (Raise (FitEncodingError 1086249600))) = false
  /\ forall i res,
       EncodeCall 1 (Raise (FitEncodingError 1086249600)) = EncodeCall i res ->
       is_ok res = false.
Proof.
  apply (proj2 (pass_never_uploads Py.fromisoformat Py.isoformat Py.upload_ok
                  watermark_0601 empty_disk noon_0602 noon_0602
                  (Some [workout_0531; workout_0602]))).
  vm_compute. auto.
Defined.

(** ** A second pass over the same batch *)

Section SecondPass.

Variable fromisoformat : string -> option datetime.

Lemma scan_latest_nothing_new (W : datetime) (ws : list hevy_workout) :
  (forall w u, In w ws -> wall_clock_start fromisoformat w = Some u ->
               instant u <= instant W) ->
  forall latest, scan_latest fromisoformat W latest ws = latest.
Proof.
  induction ws as [|w rest IH]; intros H latest; [reflexivity|].
  cbn [scan_latest]. rewrite IH by (intros; eapply H; [right|]; eauto).
  destruct (wall_clock_start fromisoformat w) as [u|] eqn:Eu.
  - rewrite (filter_workout_parsed fromisoformat W latest w u Eu).
    unfold accept. specialize (H w u (or_introl eq_refl) Eu).
    destruct (Z.ltb_spec (instant W) (instant u)); [lia|reflexivity].
  - destruct (filter_workout_unread fromisoformat W latest w Eu) as [-> | ->];
      reflexivity.
Qed.

Lemma skipped_in_expected_log (W : datetime) (ws : list hevy_workout)
    (i : nat) (w : hevy_workout) (u : datetime) :
  ws !! i = Some w ->
  wall_clock_start fromisoformat w = Some u -> instant u <= instant W ->
  In (SkipSynced i) (expected_log fromisoformat W 0 ws)
  /\ encode_attempted i (expected_log fromisoformat W 0 ws) = false
  /\ upload_attempted i (expected_log fromisoformat W 0 ws) = false.
Proof.
  intros Hi Hu Hle.
  assert (Hs : step_log fromisoformat W i w = [SkipSynced i]).
  { unfold step_log. rewrite (filter_workout_parsed fromisoformat W W w u Hu).
    unfold accept. destruct (Z.ltb_spec (instant W) (instant u)); [lia|].
    reflexivity. }
  split; [|split].
  - apply In_expected_log. exists i, w. cbn [Nat.add]. rewrite Hs. simpl. auto.
  - apply not_true_is_false. intros H. unfold encode_attempted in H.
    apply existsb_exists in H as (e & He & Hm).
    destruct e as [| |j r| |]; try discriminate.
    apply Nat.eqb_eq in Hm. subst j.
    apply In_expected_log in He as (j & w' & Hj & He).
    pose proof (step_log_index fromisoformat W _ i w' _ He (or_introl eq_refl))
      as Hn.
    simpl in Hn. subst j. rewrite Hi in Hj. injection Hj as <-.
    cbn [Nat.add] in He. rewrite Hs in He. destruct He as [He|[]]. discriminate.
  - apply not_true_is_false. intros H. unfold upload_attempted in H.
    apply existsb_exists in H as (e & He & Hm).
    destruct e as [| | |j p t o|]; try discriminate.
    apply Nat.eqb_eq in Hm. subst j.
    apply In_expected_log in He as (j & w' & Hj & He).
    assert (Hn : (0 + j)%nat = i)
      by (eapply step_log_index; [exact He|right; eauto]).
    simpl in Hn. subst j. rewrite Hi in Hj. injection Hj as <-.
    cbn [Nat.add] in He. rewrite Hs in He. destruct He as [He|[]]. discriminate.
Qed.

End SecondPass.

(** X13: running a second pass over the same batch delivers nothing twice.
    When the watermark written by a pass over a non-empty batch is read
    back by the next pass, every workout of the batch whose start the pass
    can read is skipped as already synced (neither the generator nor the
    uploader is called for it), whatever happened to it in the first pass;
    and the second pass ends at line 99 with the watermark read plus one
    second: it writes that date, or raises when Python cannot represent
    it. *)
Theorem second_pass_skips_batch
    (fromisoformat : string -> option datetime)
    (isoformat : datetime -> string)
    (upload upload2 : nat -> string -> option string -> upload_outcome)
    (sync_file : option file_content) (fs fs2 : filesystem)
    (now_load now_pass now_load2 now_pass2 : Z)
    (ws : list hevy_workout) (d : datetime) :
  ws <> [] ->
  written (main fromisoformat isoformat upload
             sync_file fs now_load now_pass (Some ws)) = Some d ->
  get_last_sync_date fromisoformat
    (sync_file_after (main fromisoformat isoformat upload
                        sync_file fs now_load now_pass (Some ws)))
    now_load2 = Ok d ->
  (forall i w,
     ws !! i = Some w -> is_Some (wall_clock_start fromisoformat w) ->
     In (SkipSynced i)
        (pass_log (main fromisoformat isoformat upload2
                     (sync_file_after
                        (main fromisoformat isoformat upload
                           sync_file fs now_load now_pass (Some ws)))
                     fs2 now_load2 now_pass2 (Some ws)))
     /\ encode_attempted i
          (pass_log (main fromisoformat isoformat upload2
                       (sync_file_after
                          (main fromisoformat isoformat upload
                             sync_file fs now_load now_pass (Some ws)))
                       fs2 now_load2 now_pass2 (Some ws))) = false
     /\ upload_attempted i
          (pass_log (main fromisoformat isoformat upload2
                       (sync_file_after
                          (main fromisoformat isoformat upload
                             sync_file fs now_load now_pass (Some ws)))
                       fs2 now_load2 now_pass2 (Some ws))) = false)
  /\ written (main fromisoformat isoformat upload2
                (sync_file_after
                   (main fromisoformat isoformat upload
                      sync_file fs now_load now_pass (Some ws)))
                fs2 now_load2 now_pass2 (Some ws))
     = dt_add d (timedelta_seconds 1).
Proof.
  intros Hne Hw Hread.
  destruct (get_last_sync_date fromisoformat sync_file now_load) as [W1|e]
    eqn:HW1; [|unfold main in Hw; rewrite HW1 in Hw; discriminate].
  set (r1 := main fromisoformat isoformat upload
               sync_file fs now_load now_pass (Some ws)) in *.
  pose proof (main_written_closed fromisoformat isoformat upload sync_file fs
                now_load now_pass ws W1 Hne HW1) as Hc.
  fold r1 in Hc. rewrite Hw in Hc. symmetry in Hc.
  apply next_watermark_date_some in Hc as (Hi & _ & _).
  assert (Hold : forall w u, In w ws ->
                   wall_clock_start fromisoformat w = Some u ->
                   instant u <= instant d).
  { intros w u Hin Hu. unfold next_watermark, US_PER_SECOND in Hi.
    pose proof (fold_max_ge_base (accepted_wall_starts fromisoformat W1 ws)
                  (instant W1)) as Hb.
    destruct (accept (instant u) (instant W1)) eqn:Ea.
    - pose proof (fold_max_ge_elem _ (instant W1) _
                    (accepted_wall_starts_In fromisoformat W1 ws w u Hin Hu Ea)).
      lia.
    - unfold accept in Ea. apply Z.ltb_ge in Ea. lia. }
  split.
  - intros i w Hi' [u Hu].
    destruct (main_closed_form fromisoformat isoformat upload2
                (sync_file_after r1) fs2 now_load2 now_pass2 ws d Hread)
      as [-> _].
    apply (skipped_in_expected_log fromisoformat d ws i w u Hi' Hu).
    apply (Hold w u); [|exact Hu].
    apply list_elem_of_In, list_elem_of_lookup. eauto.
  - destruct (main_written fromisoformat isoformat upload2
                (sync_file_after r1) fs2 now_load2 now_pass2 ws d Hne Hread)
      as [-> _].
    rewrite (scan_latest_nothing_new fromisoformat d ws Hold).
    reflexivity.
Qed.

Lemma second_pass_skips_batch_witness :
  written (py_main
             (sync_file_after
                (py_main watermark_0601 noon_0602
                   (Some [workout_0531; workout_0602])))
             midnight_0604 (Some [workout_0531; workout_0602]))
  = dt_add (datetime_utc 2024 6 2 8 0 1) (timedelta_seconds 1).
Proof.
  assert (Hne : [workout_0531; workout_0602] <> []) by discriminate.
  assert (Hw : written (main Py.fromisoformat Py.isoformat Py.upload_ok
                          watermark_0601 empty_disk noon_0602 noon_0602
                          (Some [workout_0531; workout_0602]))
               = Some (datetime_utc 2024 6 2 8 0 1))
    by (vm_compute; reflexivity).
  assert (Hr : get_last_sync_date Py.fromisoformat
                 (sync_file_after
                    (main Py.fromisoformat Py.isoformat Py.upload_ok
                       watermark_0601 empty_disk noon_0602 noon_0602
                       (Some [workout_0531; workout_0602])))
                 midnight_0604
               = Ok (datetime_utc 2024 6 2 8 0 1))
    by (vm_compute; reflexivity).
  exact (proj2 (second_pass_skips_batch Py.fromisoformat Py.isoformat
                  Py.upload_ok Py.upload_ok watermark_0601
                  empty_disk empty_disk noon_0602 noon_0602
                  midnight_0604 midnight_0604
                  [workout_0531; workout_0602] (datetime_utc 2024 6 2 8 0 1)
                  Hne Hw Hr)).
Defined.

(** ** Reading the watermark file *)

Lemma lstrip_all_space (l : list ascii) :
  forallb is_space l = true -> lstrip l = [].
Proof.
  induction l as [|c l IH]; [reflexivity|]. simpl.
  destruct (is_space c); [exact IH|discriminate].
Qed.

Lemma lstrip_skip (pad l : list ascii) :
  forallb is_space pad = true -> lstrip (pad ++ l) = lstrip l.
Proof.
  induction pad as [|c pad IH]; [reflexivity|]. simpl.
  destruct (is_space c); [exact IH|discriminate].
Qed.

Lemma lstrip_app_space (l pad : list ascii) :
  forallb is_space pad = true ->
  lstrip (l ++ pad) = if forallb is_space l then [] else lstrip l ++ pad.
Proof.
  intros Hpad. induction l as [|c l IH]; simpl.
  - apply lstrip_all_space, Hpad.
  - destruct (is_space c); [exact IH|reflexivity].
Qed.

Lemma list_ascii_of_string_append (a b : string) :
  list_ascii_of_string (String.append a b)
  = list_ascii_of_string a ++ list_ascii_of_string b.
Proof. induction a as [|c a IH]; simpl; [|rewrite IH]; reflexivity. Qed.

Lemma strip_padding (before s after : string) :
  forallb is_space (list_ascii_of_string before) = true ->
  forallb is_space (list_ascii_of_string after) = true ->
  strip (String.append before (String.append s after)) = strip s.
Proof.
  intros Hb Ha. unfold strip. rewrite !list_ascii_of_string_append.
  rewrite (lstrip_skip _ _ Hb), (lstrip_app_space _ _ Ha).
  destruct (forallb is_space (list_ascii_of_string s)) eqn:Es.
  - rewrite (lstrip_all_space _ Es). reflexivity.
  - rewrite rev_app_distr, lstrip_skip; [reflexivity|].
    rewrite forallb_forall in *. intros c Hc. apply Ha, in_rev, Hc.
Qed.




(** X15: a stored watermark is read by its wall-clock time, as UTC: white
    space around the date (a trailing newline, say) is ignored, and so is
    the UTC offset the date may carry. *)
Theorem get_last_sync_date_reads_wall_clock
    (fromisoformat : string -> option datetime)
    (before date_str after : string) (d : datetime) (now : Z) :
  forallb is_space (list_ascii_of_string before) = true ->
  forallb is_space (list_ascii_of_string after) = true ->
  strip date_str = date_str ->
  date_str <> EmptyString ->
  fromisoformat date_str = Some d ->
  get_last_sync_date fromisoformat
    (Some (Text (String.append before (String.append date_str after)))) now
  = Ok {| wall := wall d; tzinfo := Some 0 |}.
Proof.
  intros Hb Ha Hs Hne Hd. unfold get_last_sync_date.
  rewrite (strip_padding before date_str after Hb Ha), Hs.
  destruct date_str as [|c rest]; [congruence|].
  cbn [truthy]. rewrite Hd. reflexivity.
Qed.

Lemma get_last_sync_date_reads_wall_clock_witness :
  get_last_sync_date Py.fromisoformat
    (Some (Text (String.append " "
                   (String.append "2024-06-02T10:00:01+02:00"
                      (String "010"%char EmptyString))))) noon_0602
  = Ok {| wall := wall {| wall := civil 2024 6 2 10 0 1 0;
                          tzinfo := Some (2 * 3600 * US_PER_SECOND) |};
          tzinfo := Some 0 |}
  /\ get_last_sync_date Py.fromisoformat watermark_nbsp noon_0602
     = Ok {| wall := wall (datetime_utc 2024 6 1 0 0 0); tzinfo := Some 0 |}.
Proof.
  split.
  - apply (get_last_sync_date_reads_wall_clock Py.fromisoformat).
    + reflexivity.
    + reflexivity.
    + vm_compute. reflexivity.
    + discriminate.
    + vm_compute. reflexivity.
  - apply (get_last_sync_date_reads_wall_clock Py.fromisoformat nbsp
             "2024-06-01T00:00:00Z" nbsp).
    + reflexivity.
    + reflexivity.
    + vm_compute. reflexivity.
    + discriminate.
    + vm_compute. reflexivity.
Defined.

(** * The older module: [hevy_sync/sync.py] and [hevy_sync/hevy.py] *)

Section HevySyncFacts.

Variable Time : Type.
Variable Weight : Type.
Variable zero_weight : Weight.
Variable add_weight : Weight -> Weight -> Weight.
Variable volume : option Weight -> Z -> Weight.

Lemma prepare_sets_app (w : HevySync.workout Time Weight)
    (ex : HevySync.raw_exercise Weight) (ss : list (HevySync.raw_set Weight)) :
  forall acc,
    HevySync.prepare_sets zero_weight w ex ss acc
    = acc ++ map (HevySync.entry_of zero_weight w ex) ss.
Proof.
  induction ss as [|s rest IH]; intros acc; simpl.
  - rewrite app_nil_r. reflexivity.
  - rewrite IH, <- app_assoc. reflexivity.
Qed.

Lemma prepare_exercises_app (w : HevySync.workout Time Weight)
    (exs : list (HevySync.raw_exercise Weight)) :
  forall acc,
    HevySync.prepare_exercises zero_weight w exs acc
    = acc ++ flat_map (fun ex => map (HevySync.entry_of zero_weight w ex)
                                     (default [] (HevySync.raw_sets ex))) exs.
Proof.
  induction exs as [|ex rest IH]; intros acc; simpl.
  - rewrite app_nil_r. reflexivity.
  - rewrite IH, prepare_sets_app, <- app_assoc. reflexivity.
Qed.

Lemma prepare_workouts_app (ws : list (HevySync.workout Time Weight)) :
  forall acc,
    HevySync.prepare_workouts zero_weight ws acc
    = acc ++ flat_map
               (fun w =>
                  flat_map (fun ex => map (HevySync.entry_of zero_weight w ex)
                                          (default [] (HevySync.raw_sets ex)))
                           (HevySync.workout_exercises w)) ws.
Proof.
  induction ws as [|w rest IH]; intros acc; simpl.
  - rewrite app_nil_r. reflexivity.
  - rewrite IH, prepare_exercises_app, <- app_assoc. reflexivity.
Qed.

Lemma length_flat_map_sum {A B} (f : A -> list B) (l : list A) :
  length (flat_map f l) = list_sum (map (fun a => length (f a)) l).
Proof.
  induction l as [|a l IH]; simpl; [reflexivity|].
  rewrite length_app, IH. reflexivity.
Qed.

Lemma prepare_length (ws : list (HevySync.workout Time Weight)) :
  length (HevySync.prepare_hevy_syncdata zero_weight ws)
  = HevySync.total_sets ws.
Proof.
  unfold HevySync.prepare_hevy_syncdata, HevySync.total_sets.
  rewrite prepare_workouts_app. simpl. rewrite length_flat_map_sum.
  f_equal. apply map_ext. intros w. unfold HevySync.count_sets.
  rewrite length_flat_map_sum. f_equal. apply map_ext. intros ex.
  apply length_map.
Qed.

Lemma write_entries_app (es : list (HevySync.entry Time Weight)) :
  forall fit,
    HevySync.write_entries es fit
    = fit ++ map (fun e => HevySync.write_strength_training
                             (HevySync.date_time e) (HevySync.exercise_name e)
                             (HevySync.weight e) (HevySync.entry_reps e)) es.
Proof.
  induction es as [|e rest IH]; intros fit; simpl.
  - rewrite app_nil_r. reflexivity.
  - rewrite IH, <- app_assoc. reflexivity.
Qed.

Lemma sum_sets_reps (ss : list (HevySync.raw_set Weight)) :
  forall r v,
    fst (HevySync.sum_sets add_weight volume ss r v)
    = r + fold_right Z.add 0
            (map (fun s => default 0 (HevySync.set_reps s)) ss).
Proof.
  induction ss as [|s rest IH]; intros r v; simpl; [lia|].
  rewrite IH. lia.
Qed.

Lemma summarise_spec (exs : list (HevySync.raw_exercise Weight)) :
  forall acc tv ts,
    exists E,
      HevySync.summarise zero_weight add_weight volume exs acc tv ts
      = (acc ++ E,
         fold_left add_weight (map HevySync.TotalWeight E) tv,
         (ts + list_sum (map HevySync.Sets E))%nat)
      /\ map HevySync.Sets E
         = map (fun ex => length (default [] (HevySync.raw_sets ex))) exs
      /\ map HevySync.TotalReps E
         = map (fun ex =>
                  fold_right Z.add 0
                    (map (fun s => default 0 (HevySync.set_reps s))
                         (default [] (HevySync.raw_sets ex)))) exs
      /\ map HevySync.Name E
         = map (fun ex => default "Unbekannt"%string (HevySync.name ex)) exs.
Proof.
  induction exs as [|ex rest IH]; intros acc tv ts.
  - exists []. simpl. rewrite app_nil_r, Nat.add_0_r. auto.
  - cbn [HevySync.summarise].
    pose proof (sum_sets_reps (default [] (HevySync.raw_sets ex)) 0 zero_weight)
      as Hr.
    destruct (HevySync.sum_sets add_weight volume
                (default [] (HevySync.raw_sets ex)) 0 zero_weight)
      as [ex_reps ex_volume].
    cbn [fst] in Hr.
    match goal with
    | |- context [HevySync.summarise _ _ _ rest ?a ?v ?n] =>
        destruct (IH a v n) as (E & -> & Hs & Hp & Hn)
    end.
    eexists (_ :: E). split; [|split; [|split]].
    + rewrite <- app_assoc. cbn [app map fold_left list_sum fold_right].
      f_equal; [f_equal|]. unfold list_sum. cbn [HevySync.Sets]. lia.
    + cbn [map HevySync.Sets]. rewrite Hs. reflexivity.
    + cbn [map HevySync.TotalReps]. rewrite Hp, Hr. reflexivity.
    + cbn [map HevySync.Name]. rewrite Hn. reflexivity.
Qed.

End HevySyncFacts.

(** X17: [prepare_hevy_syncdata] yields one entry per set, and nothing
    else: the number of entries is the number of sets of all workouts, and
    every entry is the entry of a set of an exercise of a workout of the
    batch, carrying that workout's start time.  An exercise without a
    "sets" key, or with an empty list, contributes nothing and raises
    nothing. *)
Theorem prepare_hevy_syncdata_entries (Time Weight : Type)
    (zero_weight : Weight) (ws : list (HevySync.workout Time Weight)) :
  length (HevySync.prepare_hevy_syncdata zero_weight ws)
  = HevySync.total_sets ws
  /\ forall e,
       In e (HevySync.prepare_hevy_syncdata zero_weight ws)
       <-> exists w ex s,
             In w ws /\ In ex (HevySync.workout_exercises w)
             /\ In s (default [] (HevySync.raw_sets ex))
             /\ e = HevySync.entry_of zero_weight w ex s.
Proof.
  split; [apply prepare_length|].
  intros e. unfold HevySync.prepare_hevy_syncdata.
  rewrite prepare_workouts_app. simpl. rewrite in_flat_map. split.
  - intros (w & Hw & H). apply in_flat_map in H as (ex & Hex & H).
    apply in_map_iff in H as (s & <- & Hs). eauto 8.
  - intros (w & ex & s & Hw & Hex & Hs & ->). exists w. split; [exact Hw|].
    apply in_flat_map. exists ex. split; [exact Hex|].
    apply in_map. exact Hs.
Qed.

(** X18: [generate_strength_fitdata] after [prepare_hevy_syncdata] returns
    None exactly when no workout of the batch has a set.  Otherwise the
    encoder receives write_file_info, write_file_creator and
    write_device_info, then one write_strength_training per set in the
    order of the workouts, exercises and sets, then finish. *)
Theorem generate_after_prepare (Time Weight : Type) (zero_weight : Weight)
    (now : Time) (ws : list (HevySync.workout Time Weight)) :
  (HevySync.generate_strength_fitdata now
     (HevySync.prepare_hevy_syncdata zero_weight ws) = None
   <-> HevySync.total_sets ws = 0%nat)
  /\ forall fit,
       HevySync.generate_strength_fitdata now
         (HevySync.prepare_hevy_syncdata zero_weight ws) = Some fit ->
       fit = [HevySync.write_file_info; HevySync.write_file_creator;
              HevySync.write_device_info now]
             ++ map (fun e => HevySync.write_strength_training
                                (HevySync.date_time e)
                                (HevySync.exercise_name e)
                                (HevySync.weight e) (HevySync.entry_reps e))
                    (HevySync.prepare_hevy_syncdata zero_weight ws)
             ++ [HevySync.finish]
       /\ length fit = (4 + HevySync.total_sets ws)%nat.
Proof.
  rewrite <- (prepare_length Time Weight zero_weight ws).
  destruct (HevySync.prepare_hevy_syncdata zero_weight ws) as [|e es].
  - split; [split; reflexivity|]. intros fit H. discriminate.
  - split; [split; discriminate|].
    intros fit H. unfold HevySync.generate_strength_fitdata in H.
    injection H as <-. rewrite write_entries_app.
    split; [rewrite <- app_assoc; reflexivity|].
    rewrite !length_app, length_map. simpl. lia.
Qed.

Lemma generate_after_prepare_witness :
  HevySync.generate_strength_fitdata 0
    (HevySync.prepare_hevy_syncdata 0 [raw_workout_no_sets]) = None
  /\ (length [HevySync.write_file_info; HevySync.write_file_creator;
              HevySync.write_device_info 0;
              HevySync.write_strength_training 1717315200 "Squat" 100 5;
              HevySync.write_strength_training 1717315200 "Squat" 0 0;
              HevySync.finish]
      = (4 + HevySync.total_sets [raw_workout])%nat).
Proof.
  pose proof (generate_after_prepare Z Z 0 0 [raw_workout_no_sets]) as [Hn _].
  pose proof (generate_after_prepare Z Z 0 0 [raw_workout]) as [_ Hs].
  split.
  - apply Hn. reflexivity.
  - apply (Hs _). reflexivity.
Defined.

(** X19: the totals of [json_dict] agree with its per-exercise entries.
    There is one entry per exercise, in order; TotalSets is the sum of the
    Sets of the entries and the number of sets of the workout;
    TotalVolume is the left-to-right sum of the TotalWeight of the entries;
    the TotalReps of an entry is the sum of the reps of its sets, a missing
    value counting as 0; an exercise without "sets" key counts 0 sets. *)
Theorem json_dict_totals (Time Weight : Type) (zero_weight : Weight)
    (add_weight : Weight -> Weight -> Weight)
    (volume : option Weight -> Z -> Weight)
    (w : HevySync.workout Time Weight) :
  HevySync.ExerciseCount (HevySync.json_dict zero_weight add_weight volume w)
  = length (HevySync.Exercises
              (HevySync.json_dict zero_weight add_weight volume w))
  /\ HevySync.TotalSets (HevySync.json_dict zero_weight add_weight volume w)
     = list_sum (map HevySync.Sets
                   (HevySync.Exercises
                      (HevySync.json_dict zero_weight add_weight volume w)))
  /\ HevySync.TotalSets (HevySync.json_dict zero_weight add_weight volume w)
     = HevySync.count_sets (HevySync.workout_exercises w)
  /\ HevySync.TotalVolume (HevySync.json_dict zero_weight add_weight volume w)
     = fold_left add_weight
         (map HevySync.TotalWeight
            (HevySync.Exercises
               (HevySync.json_dict zero_weight add_weight volume w)))
         zero_weight
  /\ map HevySync.TotalReps
       (HevySync.Exercises (HevySync.json_dict zero_weight add_weight volume w))
     = map (fun ex =>
              fold_right Z.add 0
                (map (fun s => default 0 (HevySync.set_reps s))
                     (default [] (HevySync.raw_sets ex))))
           (HevySync.workout_exercises w)
  /\ map HevySync.Name
       (HevySync.Exercises (HevySync.json_dict zero_weight add_weight volume w))
     = map (fun ex => default "Unbekannt"%string (HevySync.name ex))
           (HevySync.workout_exercises w).
Proof.
  unfold HevySync.json_dict.
  destruct (summarise_spec Weight zero_weight add_weight volume
              (HevySync.workout_exercises w) [] zero_weight 0%nat)
    as (E & -> & Hs & Hr & Hn).
  cbn [HevySync.ExerciseCount HevySync.Exercises HevySync.TotalSets
       HevySync.TotalVolume app Nat.add].
  split; [|split; [|split; [|split; [|split]]]]; auto.
  - rewrite <- (length_map HevySync.Sets E), Hs, length_map. reflexivity.
  - unfold HevySync.count_sets. rewrite Hs. reflexivity.
Qed.
